(** * ipfs-cli-wrapper: the daemon supervisor and the command adapter

    A shallow embedding of the Go package [ipfscliwrapper] and of its
    helper package [oskit].  Go strings are byte strings ([string]), the
    wrapper struct is a record, every call to the operating system is an
    explicit action whose outcome is read from an environment [OS] and
    which is appended to a trace of observations.  The methods are
    those of the later version of the package; module [CommandsGo] holds
    the earlier [AddFile] and [AddFileContent] of file [commands.go].  The
    supervisor methods and [ListPinsByType] read the same in both. *)

From Stdlib Require Import ZArith List.
From Stdlib Require Import Strings.Ascii Strings.String Init.Byte.
From stdpp Require Import gmap strings.

Import ListNotations.
Local Open Scope string_scope.
Local Open Scope list_scope.

(** ** The parts of Go's [strings] and [strconv] that the package calls *)

Module GoStrings.

(** A Go string is a sequence of bytes that is read as UTF-8.
    [spaceWidth s] is the number of bytes of the white-space character
    that [s] starts with, and [0] when it starts with none.  The
    characters are those of [unicode.IsSpace]: tab, line feed, vertical
    tab, form feed, carriage return, space (the [asciiSpace] table),
    U+0085 and U+00A0 (two bytes), U+1680, U+2000 to U+200A, U+2028,
    U+2029, U+202F, U+205F and U+3000 (three bytes).  The first byte of
    each of them is never a continuation byte, so a match at any position
    is a match at a character boundary. *)
Definition spaceWidth (s : string) : nat :=
  match s with
  | "" => 0
  | String c rest =>
      match N_of_ascii c, rest with
      | (9 | 10 | 11 | 12 | 13 | 32)%N, _ => 1
      | 194%N, String d _ =>
          match N_of_ascii d with
          | (133 | 160)%N => 2
          | _ => 0
          end
      | 225%N, String d (String e _) =>
          match N_of_ascii d, N_of_ascii e with
          | 154%N, 128%N => 3
          | _, _ => 0
          end
      | 226%N, String d (String e _) =>
          match N_of_ascii d, N_of_ascii e with
          | 128%N, (128 | 129 | 130 | 131 | 132 | 133 | 134 | 135 | 136 | 137 | 138)%N => 3
          | 128%N, (168 | 169 | 175)%N => 3
          | 129%N, 159%N => 3
          | _, _ => 0
          end
      | 227%N, String d (String e _) =>
          match N_of_ascii d, N_of_ascii e with
          | 128%N, 128%N => 3
          | _, _ => 0
          end
      | _, _ => 0
      end
  end.

Definition snoc (s : string) (c : ascii) : string := s +:+ String c "".

Definition flush (field : string) (fields : list string) : list string :=
  match field with
  | "" => fields
  | _ => field :: fields
  end.

(** [strings.Fields]: the maximal runs of characters that are not white
    space, in order.  [field] is the run being read, [skip] counts the
    bytes still to pass of the white-space character being passed. *)
Fixpoint fieldsFrom (field : string) (skip : nat) (s : string) : list string :=
  match s with
  | "" => flush field []
  | String c rest =>
      match skip with
      | S more => fieldsFrom field more rest
      | O =>
          match spaceWidth s with
          | O => fieldsFrom (snoc field c) O rest
          | S more => flush field (fieldsFrom "" more rest)
          end
      end
  end.

Definition Fields (s : string) : list string := fieldsFrom "" 0 s.

(** [strings.Contains s substr]: [substr] occurs somewhere in [s]. *)
Fixpoint Contains (s substr : string) : bool :=
  String.prefix substr s ||
  match s with
  | "" => false
  | String _ rest => Contains rest substr
  end.

Fixpoint trimLeft (skip : nat) (s : string) : string :=
  match s with
  | "" => ""
  | String c rest =>
      match skip with
      | S more => trimLeft more rest
      | O =>
          match spaceWidth s with
          | O => s
          | S more => trimLeft more rest
          end
      end
  end.

(** A byte of white space is kept when something is kept after it. *)
Definition keepBefore (c : ascii) (kept : string) : string :=
  match kept with
  | "" => ""
  | _ => String c kept
  end.

Fixpoint trimRight (skip : nat) (s : string) : string :=
  match s with
  | "" => ""
  | String c rest =>
      match skip with
      | S more => keepBefore c (trimRight more rest)
      | O =>
          match spaceWidth s with
          | O => String c (trimRight O rest)
          | S more => keepBefore c (trimRight more rest)
          end
      end
  end.

(** [strings.TrimSpace] *)
Definition TrimSpace (s : string) : string := trimRight 0 (trimLeft 0 s).

Definition digit (c : ascii) : option Z :=
  let n := Z.of_N (N_of_ascii c) in
  if ((48 <=? n) && (n <=? 57))%Z then Some (n - 48)%Z else None.

Fixpoint digits (acc : Z) (s : string) : option Z :=
  match s with
  | "" => Some acc
  | String c rest =>
      match digit c with
      | Some d => digits (10 * acc + d)%Z rest
      | None => None
      end
  end.

Definition maxInt : Z := (2 ^ 63 - 1)%Z.
Definition minInt : Z := (- 2 ^ 63)%Z.

Definition inRange (n : Z) : option Z :=
  if ((minInt <=? n) && (n <=? maxInt))%Z then Some n else None.

Definition unsigned (s : string) : option Z :=
  match s with
  | "" => None
  | _ => digits 0 s
  end.

(** [strconv.Atoi] on a 64-bit platform: an optional sign, then at
    least one decimal digit; [None] stands for a non-nil error (syntax
    or range). *)
Definition Atoi (s : string) : option Z :=
  match s with
  | String "+" rest => n ← unsigned rest; inRange n
  | String "-" rest => n ← unsigned rest; inRange (- n)%Z
  | _ => n ← unsigned s; inRange n
  end.

End GoStrings.

Export GoStrings.

(** ** Errors, actions and the environment *)

(** Go [error] values.  [SysErr] is an error made by the operating system
    or the standard library, [ExitError] is [*exec.ExitError] with the
    exit code of its process state ([-1] when the process was ended by a
    signal), [Errorf] is a call of [fmt.Errorf] with its format and
    operands. *)
Inductive error : Type :=
| SysErr (msg : string)
| ExitError (exitCode : Z)
| Errorf (format : string) (operands : list operand)
with operand : Type :=
| OpString (s : string)
| OpInt (n : Z)
| OpError (e : error).

(** The test that [err] is an [*exec.ExitError] whose [ExitCode()] is
    [code]. *)
Definition exitCodeIs (code : Z) (err : error) : bool :=
  match err with
  | ExitError exitCode => (exitCode =? code)%Z
  | _ => false
  end.

(** [os.Signal] values the package sends. *)
Inductive Signal := SIGTERM | SIGKILL.

Inductive Level := Debug | Error.

(** What the package does to the outside world, one constructor per kind
    of call in the source.  A log line is its level and message; its
    attributes are left out. *)
Inductive Action : Type :=
| Log (lvl : Level) (msg : string)             (* wrap.logger.Debug / Error *)
| Printf (format : string) (operands : list operand)  (* fmt.Printf *)
| Run (argv : list string)                     (* cmd.Run of exec.Command *)
| CombinedOutput (argv : list string)          (* cmd.CombinedOutput *)
| OpenDevNull                                  (* os.Open(os.DevNull) *)
| CloseDevNull                                 (* devNull.Close *)
| Start                                        (* wrap.ipfsDaemonCmd.Start *)
| Sleep (nanoseconds : Z)                      (* time.Sleep *)
| Kill                                         (* wrap.ipfsDaemonCmd.Process.Kill *)
| Wait                                         (* wrap.ipfsDaemonCmd.Wait *)
| FindProcess (pid : Z)                        (* os.FindProcess *)
| SendSignal (pid : Z) (sig : Signal)          (* process.Signal *)
| RandomString (n : nat)                       (* randomkit.String *)
| Create (path : string)                       (* os.Create *)
| Write (path : string) (content : list byte)  (* fo.Write *)
| Close (path : string)                        (* fo.Close *)
| Remove (path : string)                       (* os.Remove *)
| Stat (path : string)                         (* os.Stat *)
| Download (url path : string)                 (* urlkit.DownloadFile *)
| MkdirAll (path : string)                     (* os.MkdirAll *)
| ExtractTarGzip (archive dir : string)        (* xtractr.ExtractTarGzip *)
| Chmod (path : string).                       (* os.Chmod *)

(** The outcome of [cmd.Start]. *)
Inductive StartOutcome :=
| Started (pid : Z)
| StartFailed (e : error).

(** What the operating system answers.  [None] is a nil error. *)
Record OS : Type := {
  run : list string -> string * option error;
  combinedOutput : list string -> string * option error;
  openDevNull : option error;
  start : StartOutcome;
  kill : option error;
  wait : option error;
  findProcess : Z -> option error;
  signal : Z -> Signal -> option error;
  randomString : nat -> string;
  create : string -> option error;
  write : string -> list byte -> option error;
  close : string -> option error;
  remove : string -> option error;
  stat : string -> option error;
  download : string -> string -> option error;
  mkdirAll : string -> option error;
  extractTarGzip : string -> string -> option (list string) * option error
}.

(** [exec.Cmd], as far as the wrapper sets or reads it. *)
Inductive Stream := Pipe | DevNull.

Record Cmd : Type := {
  Setsid : bool;            (* SysProcAttr.Setsid *)
  Stdout : Stream;
  Stderr : option Stream;
  Process : option Z        (* nil until Start succeeds *)
}.

(** The struct [ipfsCliWrapper]; the logger and the stdout reader are
    left out, the duration is in nanoseconds. *)
Record ipfsCliWrapper : Type := {
  ipfsDaemonCmd : Cmd;
  isDaemonRunning : bool;
  isDaemonRunningContinously : bool;
  daemonInitialWarmupDuration : Z;
  os : string;
  arch : string
}.

Definition setRunning (b : bool) (w : ipfsCliWrapper) : ipfsCliWrapper :=
  {| ipfsDaemonCmd := ipfsDaemonCmd w;
     isDaemonRunning := b;
     isDaemonRunningContinously := isDaemonRunningContinously w;
     daemonInitialWarmupDuration := daemonInitialWarmupDuration w;
     os := os w;
     arch := arch w |}.

Definition setCmd (c : Cmd) (w : ipfsCliWrapper) : ipfsCliWrapper :=
  {| ipfsDaemonCmd := c;
     isDaemonRunning := isDaemonRunning w;
     isDaemonRunningContinously := isDaemonRunningContinously w;
     daemonInitialWarmupDuration := daemonInitialWarmupDuration w;
     os := os w;
     arch := arch w |}.

(** One entry of the trace: an action and the wrapper as it was when the
    action was taken. *)
Record Observation : Type := {
  action : Action;
  wrapper : ipfsCliWrapper
}.

Definition Trace := list Observation.

Definition actions (t : Trace) : list Action := map action t.

(** ** The monad of wrapper methods

    A method reads the environment, updates the wrapper and extends the
    trace; it ends with a value, with a run-time panic or with the exit of
    the program. *)

Inductive Outcome (A : Type) : Type :=
| Done (a : A)
| Panic (msg : string)      (* a run-time panic: deferred calls still run *)
| Fatal (msg : string).     (* log.Fatal: the program exits at once *)
Arguments Done {A} a.
Arguments Panic {A} msg.
Arguments Fatal {A} msg.

Definition M (A : Type) : Type :=
  OS -> ipfsCliWrapper -> Trace -> Outcome A * ipfsCliWrapper * Trace.

#[global] Instance M_ret : MRet M := fun A a _ w t => (Done a, w, t).

#[global] Instance M_bind : MBind M := fun A B k m env w t =>
  match m env w t with
  | (Done a, w', t') => k a env w' t'
  | (Panic msg, w', t') => (Panic msg, w', t')
  | (Fatal msg, w', t') => (Fatal msg, w', t')
  end.

(** Perform an action and read its outcome from the environment. *)
Definition perform {A} (a : Action) (answer : OS -> A) : M A :=
  fun env w t => (Done (answer env), w, t ++ [{| action := a; wrapper := w |}]).

Definition emit (a : Action) : M unit := perform a (fun _ => tt).

Definition get : M ipfsCliWrapper := fun _ w t => (Done w, w, t).

Definition modify (f : ipfsCliWrapper -> ipfsCliWrapper) : M unit :=
  fun _ w t => (Done tt, f w, t).

Definition panic {A} (msg : string) : M A := fun _ w t => (Panic msg, w, t).

Definition fatal {A} (msg : string) : M A := fun _ w t => (Fatal msg, w, t).

(** [defer cleanup] before [body]: [cleanup] runs when [body] is left by
    return or by panic, and not when the program exits. *)
Definition defer {A} (cleanup : M unit) (body : M A) : M A :=
  fun env w t =>
    match body env w t with
    | (Fatal msg, w', t') => (Fatal msg, w', t')
    | (r, w', t') =>
        match cleanup env w' t' with
        | (_, w'', t'') => (r, w'', t'')
        end
    end.

(** ** Package [oskit] *)

Module oskit.

Definition CreateDirIfDoesNotExist (dirPath : string) : M (option error) :=
  made ← perform (MkdirAll dirPath) (fun env => mkdirAll env dirPath);
  match made with
  | Some e => mret (Some (Errorf "failed to make directory: %v" [OpError e]))
  | None => mret None
  end.

(** [CreateDirsIfDoesNotExist]: the loop returns at the first directory
    that cannot be made. *)
Fixpoint CreateDirsIfDoesNotExist (dirPaths : list string) : M (option error) :=
  match dirPaths with
  | [] => mret None
  | dirPath :: rest =>
      made ← perform (MkdirAll dirPath) (fun env => mkdirAll env dirPath);
      match made with
      | Some e => mret (Some (Errorf "failed to make directory: %v" [OpError e]))
      | None => CreateDirsIfDoesNotExist rest
      end
  end.

Definition pgrep (name : string) : list string := ["pgrep"; "-x"; name].

(** [IsProgramRunning]: [pgrep -x programName]; exit status 1 means
    that no process has that name. *)
Definition IsProgramRunning (programName : string) : M (bool * option error) :=
  '(out, err) ← perform (Run (pgrep programName))
                        (fun env => run env (pgrep programName));
  match err with
  | Some e => if exitCodeIs 1 e then mret (false, None) else mret (false, Some e)
  | None => mret (negb (TrimSpace out =? ""), None)
  end.

(** The [*strconv.NumError] of [strconv.Atoi] for [s]. *)
Definition numError (s : string) : error := SysErr ("strconv.Atoi: parsing " +:+ s).

(** The loop of [TerminateProgram] over the process ids printed by
    [pgrep]. *)
Fixpoint terminateEach (pids : list string) : M (option error) :=
  match pids with
  | [] => mret None
  | pidStr :: rest =>
      match Atoi pidStr with
      | None =>
          mret (Some (Errorf "Failed to parse PID: %v\n" [OpError (numError pidStr)]))
      | Some pid =>
          found ← perform (FindProcess pid) (fun env => findProcess env pid);
          match found with
          | Some e =>
              mret (Some (Errorf "Failed to find process with PID %d: %v\n"
                            [OpInt pid; OpError e]))
          | None =>
              sent ← perform (SendSignal pid SIGTERM)
                             (fun env => signal env pid SIGTERM);
              match sent with
              | Some e =>
                  emit (Printf "Failed to terminate process with PID %d: %v\n"
                          [OpInt pid; OpError e]);;
                  terminateEach rest
              | None =>
                  emit (Printf "Process with PID %d terminated successfully.\n"
                          [OpInt pid]);;
                  terminateEach rest
              end
          end
      end
  end.

Definition TerminateProgram (processName : string) : M (option error) :=
  '(out, err) ← perform (Run (pgrep processName))
                        (fun env => run env (pgrep processName));
  match err with
  | Some e => mret (Some (Errorf "Failed to find process: %v\n" [OpError e]))
  | None => terminateEach (Fields out)
  end.

End oskit.

(** ** Constants and the download table *)

Definition IPFSBinaryFilePath : string := "./bin/kubo/ipfs".
Definition IPFSDataDirPath : string := "./bin/kubo/data".
Definition IPFSDenylistDirPath : string := IPFSDataDirPath +:+ "/denylists/".

Definition urlsMap : gmap string (gmap string string) :=
  list_to_map [
    ("darwin", list_to_map [
      ("arm64", "https://dist.ipfs.tech/kubo/v0.29.0/kubo_v0.29.0_darwin-arm64.tar.gz");
      ("amd64", "https://dist.ipfs.tech/kubo/v0.29.0/kubo_v0.29.0_darwin-amd64.tar.gz")]);
    ("linux", list_to_map [
      ("arm", "https://dist.ipfs.tech/kubo/v0.29.0/kubo_v0.29.0_linux-arm.tar.gz");
      ("arm64", "https://dist.ipfs.tech/kubo/v0.29.0/kubo_v0.29.0_linux-arm64.tar.gz");
      ("386", "https://dist.ipfs.tech/kubo/v0.29.0/kubo_v0.29.0_linux-386.tar.gz");
      ("amd64", "https://dist.ipfs.tech/kubo/v0.29.0/kubo_v0.29.0_linux-amd64.tar.gz")]);
    ("freebsd", list_to_map [
      ("arm", "https://dist.ipfs.tech/kubo/v0.29.0/kubo_v0.29.0_freebsd-arm.tar.gz");
      ("386", "https://dist.ipfs.tech/kubo/v0.29.0/kubo_v0.29.0_freebsd-386.tar.gz");
      ("amd64", "https://dist.ipfs.tech/kubo/v0.29.0/kubo_v0.29.0_freebsd-amd64.tar.gz")]);
    ("openbsd", list_to_map [
      ("arm", "https://dist.ipfs.tech/kubo/v0.29.0/kubo_v0.29.0_openbsd-arm.tar.gz");
      ("386", "https://dist.ipfs.tech/kubo/v0.29.0/kubo_v0.29.0_openbsd-386.tar.gz");
      ("amd64", "https://dist.ipfs.tech/kubo/v0.29.0/kubo_v0.29.0_openbsd-amd64.tar.gz")]);
    ("windows", list_to_map [
      ("arm", "https://dist.ipfs.tech/kubo/v0.29.0/kubo_v0.29.0_windows-arm64.zip");
      ("386", "https://dist.ipfs.tech/kubo/v0.29.0/kubo_v0.29.0_windows-386.zip");
      ("amd64", "https://dist.ipfs.tech/kubo/v0.29.0/kubo_v0.29.0_windows-amd64.zip")])
  ].

(** [getDownloadURL]: [urlsMap[os][arch]]; indexing a map with a key it
    does not hold gives the zero value, here the nil map.  The function
    calls nothing but [fmt.Errorf]. *)
Definition getDownloadURL (os arch : string) : M (string * option error) :=
  match (urlsMap !!! os) !! arch with
  | None =>
      mret ("", Some (Errorf
        "could not find downloadable link for operating system `%s` and architecture `%s`"
        [OpString os; OpString arch]))
  | Some val => mret (val, None)
  end.

(** ** Fetching the binary *)

Definition binaryDirName : string := "bin".
Definition zippedBinaryFilePath : string := "./bin/ipfs.tar.gz".
Definition unzippedDirPath : string := "./bin/kubo".

(** The second half of [downloadAndUnzip], from [ipfs binary
    unzipping...]. *)
Definition unzip : M (option error) :=
  emit (Log Debug "ipfs binary unzipping...");;
  made ← oskit.CreateDirIfDoesNotExist unzippedDirPath;
  match made with
  | Some _ => emit (Log Error "failed to make directory");; fatal "failed to make directory: %v"
  | None =>
  made ← oskit.CreateDirIfDoesNotExist IPFSDataDirPath;
  match made with
  | Some _ => emit (Log Error "failed to make directory");; fatal "failed to make directory: %v"
  | None =>
  '(files, err) ← perform (ExtractTarGzip zippedBinaryFilePath binaryDirName)
                          (fun env => extractTarGzip env zippedBinaryFilePath binaryDirName);
  match files, err with
  | Some _, None =>
      emit (Log Debug "ipfs binary unzipped: Bytes written:");;
      removed ← perform (Remove zippedBinaryFilePath) (fun env => remove env zippedBinaryFilePath);
      match removed with
      | Some e =>
          emit (Log Error "failed deleting zip");;
          mret (Some (Errorf "failed deleting zip: %v" [OpError e]))
      | None =>
          emit (Chmod IPFSBinaryFilePath);;
          mret None
      end
  | _, _ => emit (Log Error "failed extracting tar gzip");; fatal "log.Fatal(size, files, err)"
  end
  end
  end.

Definition downloadAndUnzip (osName archName : string) : M (option error) :=
  emit (Log Debug "ipfs binary does not exist, need to fetch now...");;
  missing ← perform (Stat zippedBinaryFilePath) (fun env => stat env zippedBinaryFilePath);
  match missing with
  | None => unzip
  | Some _ =>
      '(url, err) ← getDownloadURL osName archName;
      match err with
      | Some err =>
          emit (Log Error "failed finding download link");;
          mret (Some (Errorf "failed finding download link: %v" [OpError err]))
      | None =>
          emit (Log Debug "fetching zip file");;
          downloadErr ← perform (Download url zippedBinaryFilePath)
                                (fun env => download env url zippedBinaryFilePath);
          match downloadErr with
          | Some e =>
              emit (Log Error "failed downloading the binary");;
              mret (Some (Errorf "failed downloading the binary: %v" [OpError e]))
          | None => unzip
          end
      end
  end.

(** ** The daemon supervisor *)

Definition detached (c : Cmd) : Cmd :=
  {| Setsid := true; Stdout := Stdout c; Stderr := Stderr c; Process := Process c |}.

Definition toDevNull (c : Cmd) : Cmd :=
  {| Setsid := Setsid c; Stdout := DevNull; Stderr := Some DevNull; Process := Process c |}.

Definition withProcess (pid : Z) (c : Cmd) : Cmd :=
  {| Setsid := Setsid c; Stdout := Stdout c; Stderr := Stderr c; Process := Some pid |}.

Definition onCmd (f : Cmd -> Cmd) (w : ipfsCliWrapper) : ipfsCliWrapper :=
  setCmd (f (ipfsDaemonCmd w)) w.

(** The end of [StartDaemonInBackground], from [// Start the command]:
    start the child, set the flag, sleep for the warmup duration. *)
Definition startCommand : M (option error) :=
  started ← perform Start start;
  match started with
  | StartFailed e =>
      emit (Log Error "error starting command");;
      mret (Some (Errorf "Error starting command: %v\n" [OpError e]))
  | Started pid =>
      modify (onCmd (withProcess pid));;
      modify (setRunning true);;
      w ← get;
      emit (Sleep (daemonInitialWarmupDuration w));;
      emit (Log Debug "ipfs daemon is running and waiting for api call from your app");;
      mret None
  end.

Definition StartDaemonInBackground : M (option error) :=
  '(isRunningAlready, err) ← oskit.IsProgramRunning "ipfs";
  match isRunningAlready, err with
  | true, _ =>
      modify (setRunning true);;
      emit (Log Debug "ipfs daemon is already running and waiting for api call from your app");;
      mret None
  | false, Some e =>
      emit (Log Error "is program running err");;
      mret (Some (Errorf "is program running error: %v" [OpError e]))
  | false, None =>
      emit (Log Debug "ipfs daemon is starting...");;
      w ← get;
      if isDaemonRunningContinously w then
        emit (Log Debug "continous operation mode detected, ipfs daemon will run independently of this app");;
        modify (onCmd detached);;
        opened ← perform OpenDevNull openDevNull;
        match opened with
        | Some e => mret (Some e)
        | None =>
            defer (emit CloseDevNull)
                  (modify (onCmd toDevNull);; startCommand)
        end
      else startCommand
  end.

Definition ShutdownDaemon : M (option error) :=
  w ← get;
  if isDaemonRunningContinously w then
    emit (Log Debug "Ignoring daemon shutdown as wrapper is running in continous operation mode");;
    mret None
  else
    modify (setRunning false);;
    match Process (ipfsDaemonCmd w) with
    | None => panic "invalid memory address or nil pointer dereference"
    | Some _ =>
        killErr ← perform Kill kill;
        match killErr with
        | Some e =>
            emit (Log Error "error killing process");;
            mret (Some (Errorf "Error killing process: %v\n" [OpError e]))
        | None =>
            waitErr ← perform Wait wait;
            match waitErr with
            | None => mret None
            | Some e =>
                if exitCodeIs (-1) e then
                  emit (Log Debug "ipfs daemon has exited");;
                  mret None
                else
                  emit (Log Error "command exited with error");;
                  mret (Some (Errorf "Command exited with error: %v\n" [OpError e]))
            end
        end
    end.

Definition ForceShutdownDaemon : M (option error) :=
  w ← get;
  if isDaemonRunningContinously w then
    modify (setRunning false);;
    oskit.TerminateProgram "ipfs"
  else ShutdownDaemon.

(** ** The command adapter *)

(** The three variables of the scanning loop of [AddFile]. *)
Record addScan : Type := {
  filename : string;
  cid : string;
  foundAddedText : bool
}.

Definition addScanStart : addScan :=
  {| filename := ""; cid := ""; foundAddedText := false |}.

(** [for _, part := range parts] of [AddFile]; the first branch ends
    with [break], the other two with [continue]. *)
Fixpoint scanParts (parts : list string) (st : addScan) : addScan :=
  match parts with
  | [] => st
  | part :: rest =>
      if negb (cid st =? "") then
        {| filename := part; cid := cid st; foundAddedText := foundAddedText st |}
      else if foundAddedText st then
        scanParts rest
          {| filename := filename st; cid := part; foundAddedText := foundAddedText st |}
      else if Contains part "added" then
        scanParts rest
          {| filename := filename st; cid := cid st; foundAddedText := true |}
      else scanParts rest st
  end.

Definition addArgv (filepath : string) : list string :=
  [IPFSBinaryFilePath; "add"; filepath; "--cid-version=1"].

Definition AddFile (filepath : string) : M (string * option error) :=
  '(output, err) ← perform (CombinedOutput (addArgv filepath))
                           (fun env => combinedOutput env (addArgv filepath));
  match err with
  | Some e =>
      emit (Log Error "error adding file to ipfs");;
      mret ("", Some (Errorf "failed to add file to ipfs: %v, output: %s"
                        [OpError e; OpString output]))
  | None =>
      let st := scanParts (Fields output) addScanStart in
      emit (Log Debug "file added to ipfs successfully");;
      mret (cid st, None)
  end.

Definition tempfile (suffix : string) : string :=
  "./ipfscliwrapper_tempfile_" +:+ suffix.

(** [AddFileContent]; [fileContent] is [None] for a nil slice. *)
Definition AddFileContent (fileContent : option (list byte)) : M (string * option error) :=
  match fileContent with
  | None => mret ("", Some (Errorf "cannot have missing: %v" [OpString "fileContent"]))
  | Some content =>
      suffix ← perform (RandomString 5) (fun env => randomString env 5);
      let filepath := tempfile suffix in
      created ← perform (Create filepath) (fun env => create env filepath);
      match created with
      | Some e =>
          emit (Log Error "failed creating file in local filesystem");;
          mret ("", Some e)
      | None =>
          written ← perform (Write filepath content) (fun env => write env filepath content);
          match written with
          | Some e =>
              emit (Log Error "failed writing file to local filesystem");;
              mret ("", Some e)
          | None =>
              closed ← perform (Close filepath) (fun env => close env filepath);
              match closed with
              | Some e =>
                  emit (Log Error "failed closing file in local filesystem");;
                  mret ("", Some e)
              | None =>
                  defer
                    (rmErr ← perform (Remove filepath) (fun env => remove env filepath);
                     match rmErr with
                     | Some _ => emit (Log Error "failed removing from local filesystem")
                     | None => mret tt
                     end)
                    ('(cid, err) ← AddFile filepath;
                     match err with
                     | Some e =>
                         emit (Log Error "failed adding file to ipfs");;
                         mret ("", Some e)
                     | None => mret (cid, None)
                     end)
              end
          end
      end
  end.

Definition ignorePartArr : list string := ["recursive"; "indirect"; "direct"].

(** The inner loop of [ListPinsByType]: [ignoreFound] is set when [part]
    equals one of the labels. *)
Fixpoint matchIgnored (part : string) (ignoreParts : list string) (ignoreFound : bool) : bool :=
  match ignoreParts with
  | [] => ignoreFound
  | ignorePart :: rest =>
      if part =? ignorePart then matchIgnored part rest true
      else matchIgnored part rest ignoreFound
  end.

(** The outer loop: append [part] unless a label matched, then reset the
    flag. *)
Fixpoint collectCids (parts : list string) (cids : list string) (ignoreFound : bool) : list string :=
  match parts with
  | [] => cids
  | part :: rest =>
      let ignoreFound := matchIgnored part ignorePartArr ignoreFound in
      let cids := if negb ignoreFound then cids ++ [part] else cids in
      collectCids rest cids false
  end.

Definition pinLsArgv (typeID : string) : list string :=
  [IPFSBinaryFilePath; "pin"; "ls"; "--type=" +:+ typeID; "--stream=true"].

(** [ListPinsByType]; the first component is [None] for a nil slice. *)
Definition ListPinsByType (typeID : string) : M (option (list string) * option error) :=
  '(output, err) ← perform (CombinedOutput (pinLsArgv typeID))
                           (fun env => combinedOutput env (pinLsArgv typeID));
  match err with
  | Some e =>
      emit (Log Error "error pinning file content on ipfs");;
      mret (None, Some (Errorf "failed to pin file content on ipfs: %v, output: %s"
                          [OpError e; OpString output]))
  | None => mret (Some (collectCids (Fields output) [] false), None)
  end.

Definition ListPins : M (option (list string) * option error) := ListPinsByType "all".

(** [GetFile], [Pin], [Unpin] and [GarbageCollection] run one command
    and return its error, wrapped with the output. *)
Definition GetFile (cid : string) : M (option error) :=
  let argv := [IPFSBinaryFilePath; "get"; cid] in
  '(output, err) ← perform (CombinedOutput argv) (fun env => combinedOutput env argv);
  match err with
  | Some e =>
      emit (Log Error "error getting file from ipfs");;
      mret (Some (Errorf "failed to get file from ipfs: %v, output: %s"
                    [OpError e; OpString output]))
  | None => mret None
  end.

(** [Cat]: the output is the content; on failure the slice is empty. *)
Definition Cat (cid : string) : M (string * option error) :=
  let argv := [IPFSBinaryFilePath; "cat"; cid] in
  '(output, err) ← perform (CombinedOutput argv) (fun env => combinedOutput env argv);
  match err with
  | Some e =>
      emit (Log Error "error catting file from ipfs");;
      mret ("", Some (Errorf "failed to cat file from ipfs: %v, output: %s"
                        [OpError e; OpString output]))
  | None =>
      emit (Log Debug "file content retrieved from ipfs successfully");;
      mret (output, None)
  end.

Definition Pin (cid : string) : M (option error) :=
  let argv := [IPFSBinaryFilePath; "pin"; "add"; cid] in
  '(output, err) ← perform (CombinedOutput argv) (fun env => combinedOutput env argv);
  match err with
  | Some e =>
      emit (Log Error "error pinning file content on ipfs");;
      mret (Some (Errorf "failed to pin file content on ipfs: %v, output: %s"
                    [OpError e; OpString output]))
  | None => mret None
  end.

Definition Unpin (cid : string) : M (option error) :=
  let argv := [IPFSBinaryFilePath; "pin"; "rm"; cid] in
  '(output, err) ← perform (CombinedOutput argv) (fun env => combinedOutput env argv);
  match err with
  | Some e =>
      emit (Log Error "error removing pinning from ipfs");;
      mret (Some (Errorf "failed to remove pin from ipfs: %v, output: %s"
                    [OpError e; OpString output]))
  | None => mret None
  end.

Definition gcArgv : list string := [IPFSBinaryFilePath; "repo"; "gc"].

Definition GarbageCollection : M (option error) :=
  '(output, err) ← perform (CombinedOutput gcArgv) (fun env => combinedOutput env gcArgv);
  match err with
  | Some e =>
      emit (Log Error "error garbage collecting in ipfs");;
      mret (Some (Errorf "failed to run garbage collection pin from ipfs: %v, output: %s"
                    [OpError e; OpString output]))
  | None => mret None
  end.

(** ** Options and the constructor *)

(** A functional option: a procedure on the wrapper being built. *)
Definition Option : Type := M unit.

Definition setContinously (b : bool) (w : ipfsCliWrapper) : ipfsCliWrapper :=
  {| ipfsDaemonCmd := ipfsDaemonCmd w;
     isDaemonRunning := isDaemonRunning w;
     isDaemonRunningContinously := b;
     daemonInitialWarmupDuration := daemonInitialWarmupDuration w;
     os := os w;
     arch := arch w |}.

Definition setOsArch (overrideOS overrideArch : string) (w : ipfsCliWrapper) : ipfsCliWrapper :=
  {| ipfsDaemonCmd := ipfsDaemonCmd w;
     isDaemonRunning := isDaemonRunning w;
     isDaemonRunningContinously := isDaemonRunningContinously w;
     daemonInitialWarmupDuration := daemonInitialWarmupDuration w;
     os := overrideOS;
     arch := overrideArch |}.

Definition setWarmup (d : Z) (w : ipfsCliWrapper) : ipfsCliWrapper :=
  {| ipfsDaemonCmd := ipfsDaemonCmd w;
     isDaemonRunning := isDaemonRunning w;
     isDaemonRunningContinously := isDaemonRunningContinously w;
     daemonInitialWarmupDuration := d;
     os := os w;
     arch := arch w |}.

(** A 64-bit signed integer after an operation that may overflow. *)
Definition wrapInt64 (z : Z) : Z := ((z + 2 ^ 63) mod 2 ^ 64 - 2 ^ 63)%Z.

(** [time.Second], in nanoseconds. *)
Definition Second : Z := 1000000000%Z.

Definition WithContinousOperation : Option := modify (setContinously true).

Definition WithOverrideBinaryOsAndArch (overrideOS overrideArch : string) : Option :=
  modify (setOsArch overrideOS overrideArch).

(** [time.Duration(seconds) * time.Second], a product of [int64]. *)
Definition WithOverrideDaemonInitialWarmupDuration (seconds : Z) : Option :=
  modify (setWarmup (wrapInt64 (seconds * Second))).

(** The warning is written with [log.Printf]. *)
Definition WithForcedShutdownDaemonOnStartup : Option :=
  err ← oskit.TerminateProgram "ipfs";
  match err with
  | Some e =>
      emit (Printf "warning - failed terminating ipfs from os background: %v\n" [OpError e])
  | None => mret tt
  end.

Definition WithDenylist (denylistFilename denylistURL : string) : Option :=
  let downloadedDenylistFilePath := "./bin/kubo/data/denylists/" +:+ denylistFilename in
  missing ← perform (Stat downloadedDenylistFilePath)
                    (fun env => stat env downloadedDenylistFilePath);
  match missing with
  | Some _ =>
      downloadErr ← perform (Download denylistURL downloadedDenylistFilePath)
                            (fun env => download env denylistURL downloadedDenylistFilePath);
      match downloadErr with
      | Some _ => fatal "failed downloading the binary: %v"
      | None => mret tt
      end
  | None => mret tt
  end.

Definition WithRunGarbageCollectionOnStarup : Option :=
  '(output, err) ← perform (CombinedOutput gcArgv) (fun env => combinedOutput env gcArgv);
  match err with
  | Some _ => fatal "error ipfs running garbage collection on startup: %v\n%v"
  | None => mret tt
  end.

(** [for _, opt := range options { opt(wrapper) }] *)
Fixpoint applyOptions (options : list Option) : M unit :=
  match options with
  | [] => mret tt
  | opt :: rest => opt;; applyOptions rest
  end.

(** [exec.Command(app, arg0, arg1)] after [StdoutPipe]. *)
Definition daemonCmd : Cmd :=
  {| Setsid := false; Stdout := Pipe; Stderr := None; Process := None |}.

(** The struct literal of [NewWrapper].  The command pointer is nil until
    the end of [NewWrapper] and no option reads it; the record holds
    [daemonCmd] from the start. *)
Definition newStruct (osName archName : string) : ipfsCliWrapper :=
  {| ipfsDaemonCmd := daemonCmd;
     isDaemonRunning := false;
     isDaemonRunningContinously := false;
     daemonInitialWarmupDuration := (5 * Second)%Z;
     os := osName;
     arch := archName |}.

Definition initArgv : list string := [IPFSBinaryFilePath; "init"].

(** STEP 4 and STEP 5 of [NewWrapper]: fetch the binary when it is not
    there, run [ipfs init] whatever it answers, and sleep. *)
Definition provision : M unit :=
  missing ← perform (Stat IPFSBinaryFilePath) (fun env => stat env IPFSBinaryFilePath);
  match missing with
  | None => mret tt
  | Some _ =>
      w ← get;
      fetched ← downloadAndUnzip (os w) (arch w);
      match fetched with
      | Some _ => fatal "failed to get ipfs binary from url: %v"
      | None =>
          '(output, err) ← perform (CombinedOutput initArgv)
                                   (fun env => combinedOutput env initArgv);
          match err with
          | Some _ => emit (Log Error "failed to initialize IPFS")
          | None => emit (Log Debug "IPFS initialization completed successfully")
          end;;
          emit (Sleep (daemonInitialWarmupDuration w))
      end
  end.

(** [NewWrapper].  [GOOS] and [GOARCH] are [runtime.GOOS] and
    [runtime.GOARCH], [stdoutPipe] is the error of [daemonCmd.StdoutPipe()].
    The wrapper the method starts from is not read; the wrapper returned
    is the one built. *)
Definition NewWrapper (GOOS GOARCH : string) (stdoutPipe : option error)
    (options : list Option) : M (option ipfsCliWrapper * option error) :=
  made ← oskit.CreateDirsIfDoesNotExist ["./bin"; IPFSDataDirPath; IPFSDenylistDirPath];
  match made with
  | Some _ => fatal "failed to make directory: %v"
  | None =>
      modify (fun _ => newStruct GOOS GOARCH);;
      applyOptions options;;
      provision;;
      match stdoutPipe with
      | Some e =>
          emit (Log Error "error creating stdout pipe");;
          mret (None, Some (Errorf "Error creating stdout pipe: %v\n" [OpError e]))
      | None =>
          modify (setCmd daemonCmd);;
          emit (Log Debug "ipfs daemon wrapper initialized");;
          w ← get;
          mret (Some w, None)
      end
  end.

(** ** The earlier command adapter (file [commands.go])

    [AddFile] passes no [--cid-version] and [AddFileContent] takes the
    name of the file to write. *)

Module CommandsGo.

Definition addArgv (filepath : string) : list string :=
  [IPFSBinaryFilePath; "add"; filepath].

Definition AddFile (filepath : string) : M (string * option error) :=
  '(output, err) ← perform (CombinedOutput (addArgv filepath))
                           (fun env => combinedOutput env (addArgv filepath));
  match err with
  | Some e =>
      emit (Log Error "error adding file to ipfs");;
      mret ("", Some (Errorf "failed to add file to ipfs: %v, output: %s"
                        [OpError e; OpString output]))
  | None =>
      let st := scanParts (Fields output) addScanStart in
      emit (Log Debug "file added to ipfs successfully");;
      mret (cid st, None)
  end.

Definition AddFileContent (filename : string) (fileContent : option (list byte))
  : M (string * option error) :=
  if filename =? "" then
    mret ("", Some (Errorf "cannot have missing: %v" [OpString "filename"]))
  else
  match fileContent with
  | None => mret ("", Some (Errorf "cannot have missing: %v" [OpString "fileContent"]))
  | Some content =>
      let filepath := "./" +:+ filename in
      created ← perform (Create filepath) (fun env => create env filepath);
      match created with
      | Some e =>
          emit (Log Error "failed creating file in local filesystem");;
          mret ("", Some e)
      | None =>
          written ← perform (Write filepath content) (fun env => write env filepath content);
          match written with
          | Some e =>
              emit (Log Error "failed writing file to local filesystem");;
              mret ("", Some e)
          | None =>
              closed ← perform (Close filepath) (fun env => close env filepath);
              match closed with
              | Some e =>
                  emit (Log Error "failed closing file in local filesystem");;
                  mret ("", Some e)
              | None =>
                  '(cid, err) ← AddFile filename;
                  match err with
                  | Some e =>
                      emit (Log Error "failed adding file to ipfs");;
                      mret ("", Some e)
                  | None =>
                      rmErr ← perform (Remove filepath) (fun env => remove env filepath);
                      match rmErr with
                      | Some _ =>
                          emit (Log Error "failed removing from local filesystem");;
                          mret ("", err)
                      | None => mret (cid, err)
                      end
                  end
              end
          end
      end
  end.

End CommandsGo.

(** ** [oskit.MoveFile]

    The function works on two open files; its calls and their answers
    are kept apart from those of the wrapper. *)

Module MoveFileModel.

Inductive FileCall : Type :=
| OpenCall (path : string)                  (* os.Open *)
| StatCall (path : string)                  (* src.Stat *)
| OpenFileCall (path : string) (perm : Z)   (* os.OpenFile, write, create, truncate *)
| CopyCall (dst src : string)               (* io.Copy *)
| CloseCall (path : string)                 (* Close *)
| RemoveCall (path : string).               (* os.Remove *)

Inductive StatOutcome : Type :=
| StatOk (mode : Z)
| StatFailed (e : error).

Record Files : Type := {
  openAnswer : string -> option error;
  statAnswer : string -> StatOutcome;
  openFileAnswer : string -> Z -> option error;
  copyAnswer : string -> string -> option error;
  closeAnswer : string -> option error;
  removeAnswer : string -> option error
}.

(** [os.ModePerm], octal 777. *)
Definition ModePerm : Z := 511%Z.

(** [MoveFile].  [defer src.Close()] and [defer dst.Close()] run at each
    return that follows them, the later one first; the answers of the
    deferred closes, of the close and of the remove after a failed copy
    are dropped, as in the source. *)
Definition MoveFile (fs : Files) (sourcePath destPath : string)
  : option error * list FileCall :=
  match openAnswer fs sourcePath with
  | Some e => (Some e, [OpenCall sourcePath])
  | None =>
      let deferSrc := [CloseCall sourcePath] in
      match statAnswer fs sourcePath with
      | StatFailed e => (Some e, [OpenCall sourcePath; StatCall sourcePath] ++ deferSrc)
      | StatOk mode =>
          let perm := Z.land mode ModePerm in
          let opened :=
            [OpenCall sourcePath; StatCall sourcePath; OpenFileCall destPath perm] in
          match openFileAnswer fs destPath perm with
          | Some e => (Some e, opened ++ deferSrc)
          | None =>
              let deferred := [CloseCall destPath; CloseCall sourcePath] in
              match copyAnswer fs destPath sourcePath with
              | Some e =>
                  (Some e,
                   opened ++ [CopyCall destPath sourcePath; CloseCall destPath;
                              RemoveCall destPath] ++ deferred)
              | None =>
                  match closeAnswer fs destPath with
                  | Some e =>
                      (Some e,
                       opened ++ [CopyCall destPath sourcePath; CloseCall destPath]
                              ++ deferred)
                  | None =>
                      match closeAnswer fs sourcePath with
                      | Some e =>
                          (Some e,
                           opened ++ [CopyCall destPath sourcePath; CloseCall destPath;
                                      CloseCall sourcePath] ++ deferred)
                      | None =>
                          (removeAnswer fs sourcePath,
                           opened ++ [CopyCall destPath sourcePath; CloseCall destPath;
                                      CloseCall sourcePath; RemoveCall sourcePath]
                                  ++ deferred)
                      end
                  end
              end
          end
      end
  end.

End MoveFileModel.

(** ** Package [urlkit] *)

Module urlkit.

Inductive NetCall : Type :=
| CreateCall (path : string)      (* os.Create *)
| GetCall (url : string)          (* http.Get *)
| CopyCall (path : string)        (* io.Copy(out, resp.Body) *)
| CloseBodyCall                   (* resp.Body.Close *)
| CloseOutCall (path : string).   (* out.Close *)

(** The answer of [http.Get]: a response with its status code and status
    line, or an error. *)
Inductive GetOutcome : Type :=
| Response (StatusCode : Z) (Status : string)
| GetFailed (e : error).

Record Net : Type := {
  createAnswer : string -> option error;
  getAnswer : string -> GetOutcome;
  copyAnswer : string -> option error
}.

(** [http.StatusOK] *)
Definition StatusOK : Z := 200%Z.

(** [DownloadFile]; the two deferred closes run at each return that
    follows them, the body first. *)
Definition DownloadFile (net : Net) (fromUrl saveToFilepath : string)
  : option error * list NetCall :=
  match createAnswer net saveToFilepath with
  | Some e => (Some e, [CreateCall saveToFilepath])
  | None =>
      match getAnswer net fromUrl with
      | GetFailed e =>
          (Some e, [CreateCall saveToFilepath; GetCall fromUrl; CloseOutCall saveToFilepath])
      | Response StatusCode Status =>
          if negb (StatusCode =? StatusOK)%Z then
            (Some (Errorf "bad status: %s" [OpString Status]),
             [CreateCall saveToFilepath; GetCall fromUrl;
              CloseBodyCall; CloseOutCall saveToFilepath])
          else
            (copyAnswer net saveToFilepath,
             [CreateCall saveToFilepath; GetCall fromUrl; CopyCall saveToFilepath;
              CloseBodyCall; CloseOutCall saveToFilepath])
      end
  end.

End urlkit.

(** ** Package [randomkit] *)

Module randomkit.

Definition alphanum : string :=
  "0123456789ABCDEFGHIJKLMNOPQRSTUVWXYZabcdefghijklmnopqrstuvwxyz".

(** [make([]byte, n)] after [DefaultGenerator.Read]: the generator has
    written the bytes [read], [n] of them at most, over [n] zero bytes;
    the answer of [Read] is dropped. *)
Definition buffer (n : nat) (read : list byte) : list byte :=
  firstn n (read ++ repeat x00 (n - length read)).

(** [alphanum[b%byte(len(alphanum))]] *)
Definition pick (b : byte) : ascii :=
  nth (N.to_nat (Byte.to_N b mod N.of_nat (String.length alphanum)))
      (list_ascii_of_string alphanum) "000"%char.

Definition String (n : nat) (read : list byte) : string :=
  string_of_list_ascii (map pick (buffer n read)).

End randomkit.

(** * The vocabulary of the statements *)

(** Projections of the result of running a method. *)
Definition outcome {A} (r : Outcome A * ipfsCliWrapper * Trace) : Outcome A := r.1.1.
Definition after {A} (r : Outcome A * ipfsCliWrapper * Trace) : ipfsCliWrapper := r.1.2.
Definition traceOf {A} (r : Outcome A * ipfsCliWrapper * Trace) : Trace := r.2.



(** A token is a pin-type label when it equals one of the three words. *)
Definition isLabel (part : string) : bool :=
  (part =? "recursive") || (part =? "indirect") || (part =? "direct").

(** The pair is a key of the table: [os] has an inner map and [arch] is a
    key of it. *)
Definition inTable (os arch : string) : Prop :=
  exists m, urlsMap !! os = Some m /\ is_Some (m !! arch).

(** The error of [getDownloadURL] for a pair it does not know. *)
Definition unsupportedPlatform (os arch : string) : error :=
  Errorf "could not find downloadable link for operating system `%s` and architecture `%s`"
         [OpString os; OpString arch].

(** The signals among a list of actions, in order. *)
Definition signalsSent (acts : list Action) : list (Z * Signal) :=
  flat_map (fun a => match a with SendSignal pid sig => [(pid, sig)] | _ => [] end) acts.

(** What the loop of [TerminateProgram] may do: look a process up, send
    it [SIGTERM], print a line. *)
Definition gentle (a : Action) : Prop :=
  match a with
  | FindProcess _ | SendSignal _ SIGTERM | Printf _ _ => True
  | _ => False
  end.

(** The actions that reach the daemon process. *)
Definition touchesProcess (a : Action) : Prop :=
  match a with
  | Start | Kill | Wait | SendSignal _ _ => True
  | _ => False
  end.

(** A method that is a function of the answers of the operating system
    alone: it returns without panic, leaves the wrapper as it was, and
    its result and its actions are the same for every wrapper and every
    trace it starts from. *)
Definition stateless {A} (m : M A) : Prop :=
  forall env, exists r acts, forall w t, exists added,
    m env w t = (Done r, w, t ++ added) /\ actions added = acts.

(** The first failure among creating, writing and closing the file. *)
Definition fileError (env : OS) (path : string) (content : list byte) : option error :=
  match create env path with
  | Some e => Some e
  | None =>
      match write env path content with
      | Some e => Some e
      | None => close env path
      end
  end.

(** The actions that run a command or remove a file. *)
Definition runsOrRemoves (a : Action) : Prop :=
  match a with
  | CombinedOutput _ | Remove _ => True
  | _ => False
  end.

(** The actions other than log lines, in order. *)
Definition isLog (a : Action) : bool :=
  match a with
  | Log _ _ => true
  | _ => false
  end.

Definition effects (t : Trace) : list Action :=
  List.filter (fun a => negb (isLog a)) (actions t).

Definition isDownload (a : Action) : Prop :=
  match a with
  | Download _ _ => True
  | _ => False
  end.

(** The options of the package, and those among them that only set
    fields of the wrapper. *)
Inductive setterOption : Option -> Prop :=
| setsContinous : setterOption WithContinousOperation
| setsOsArch overrideOS overrideArch :
    setterOption (WithOverrideBinaryOsAndArch overrideOS overrideArch)
| setsWarmup seconds :
    setterOption (WithOverrideDaemonInitialWarmupDuration seconds).

Inductive packageOption : Option -> Prop :=
| isSetter opt : setterOption opt -> packageOption opt
| isForcedShutdown : packageOption WithForcedShutdownDaemonOnStartup
| isDenylist denylistFilename denylistURL :
    packageOption (WithDenylist denylistFilename denylistURL)
| isGarbageCollection : packageOption WithRunGarbageCollectionOnStarup.

(** The wrapper of [NewWrapper] once the options have been applied. *)
Definition configured (GOOS GOARCH : string) (options : list Option) (env : OS)
  : ipfsCliWrapper :=
  after (applyOptions options env (newStruct GOOS GOARCH) []).

(** The three directories [NewWrapper] makes first. *)
Definition dirs : list string := ["./bin"; IPFSDataDirPath; IPFSDenylistDirPath].

(** ** Sample environments and wrappers *)

(** An operating system in which no process is called [ipfs], every call
    succeeds and commands print nothing. *)
Definition quietOS : OS := {|
  run := fun _ => ("", Some (ExitError 1));
  combinedOutput := fun _ => ("", None);
  openDevNull := None;
  start := Started 4242;
  kill := None;
  wait := Some (ExitError (-1));
  findProcess := fun _ => None;
  signal := fun _ _ => None;
  randomString := fun _ => "a1B2c";
  create := fun _ => None;
  write := fun _ _ => None;
  close := fun _ => None;
  remove := fun _ => None;
  stat := fun _ => None;
  download := fun _ _ => None;
  mkdirAll := fun _ => None;
  extractTarGzip := fun _ _ => (Some ["bin/kubo/ipfs"], None)
|}.

(** [quietOS] with another answer to [cmd.Run], and to
    [cmd.CombinedOutput]. *)
Definition withRun (answer : string * option error) (env : OS) : OS := {|
  run := fun _ => answer;
  combinedOutput := combinedOutput env;
  openDevNull := openDevNull env;
  start := start env;
  kill := kill env;
  wait := wait env;
  findProcess := findProcess env;
  signal := signal env;
  randomString := randomString env;
  create := create env;
  write := write env;
  close := close env;
  remove := remove env;
  stat := stat env;
  download := download env;
  mkdirAll := mkdirAll env;
  extractTarGzip := extractTarGzip env
|}.

Definition withCombinedOutput (answer : string * option error) (env : OS) : OS := {|
  run := run env;
  combinedOutput := fun _ => answer;
  openDevNull := openDevNull env;
  start := start env;
  kill := kill env;
  wait := wait env;
  findProcess := findProcess env;
  signal := signal env;
  randomString := randomString env;
  create := create env;
  write := write env;
  close := close env;
  remove := remove env;
  stat := stat env;
  download := download env;
  mkdirAll := mkdirAll env;
  extractTarGzip := extractTarGzip env
|}.

Definition withStart (answer : StartOutcome) (env : OS) : OS := {|
  run := run env;
  combinedOutput := combinedOutput env;
  openDevNull := openDevNull env;
  start := answer;
  kill := kill env;
  wait := wait env;
  findProcess := findProcess env;
  signal := signal env;
  randomString := randomString env;
  create := create env;
  write := write env;
  close := close env;
  remove := remove env;
  stat := stat env;
  download := download env;
  mkdirAll := mkdirAll env;
  extractTarGzip := extractTarGzip env
|}.

Definition withWait (answer : option error) (env : OS) : OS := {|
  run := run env;
  combinedOutput := combinedOutput env;
  openDevNull := openDevNull env;
  start := start env;
  kill := kill env;
  wait := answer;
  findProcess := findProcess env;
  signal := signal env;
  randomString := randomString env;
  create := create env;
  write := write env;
  close := close env;
  remove := remove env;
  stat := stat env;
  download := download env;
  mkdirAll := mkdirAll env;
  extractTarGzip := extractTarGzip env
|}.

(** The wrapper as [NewWrapper] leaves it (five seconds of warmup), and
    the same with [WithContinousOperation]. *)
Definition freshCmd : Cmd :=
  {| Setsid := false; Stdout := Pipe; Stderr := None; Process := None |}.

Definition freshWrapper : ipfsCliWrapper := {|
  ipfsDaemonCmd := freshCmd;
  isDaemonRunning := false;
  isDaemonRunningContinously := false;
  daemonInitialWarmupDuration := 5000000000;
  os := "linux";
  arch := "amd64"
|}.

(** A wrapper whose child was started by [StartDaemonInBackground]. *)
Definition startedWrapper : ipfsCliWrapper :=
  setRunning true (onCmd (withProcess 4242) freshWrapper).

Definition continuousWrapper : ipfsCliWrapper := {|
  ipfsDaemonCmd := freshCmd;
  isDaemonRunning := false;
  isDaemonRunningContinously := true;
  daemonInitialWarmupDuration := 5000000000;
  os := "linux";
  arch := "amd64"
|}.

(** Two daemons, as [pgrep -x ipfs] prints them. *)
Definition twoDaemons : string := "101
202
".

(** The daemon is not running, so [ipfs add] exits with status 1. *)
Definition addFails : OS :=
  withCombinedOutput ("Error: ipfs daemon is not running", Some (ExitError 1)) quietOS.

Definition hello : list byte := [x68; x65; x6c; x6c; x6f]%byte.

(** [quietOS] with other answers for the child process, for the files
    of [AddFileContent], and for the disk and the network of
    [NewWrapper]. *)
Definition withProcessAnswers (killed : option error)
    (found signalled : Z -> option error) (env : OS) : OS := {|
  run := run env;
  combinedOutput := combinedOutput env;
  openDevNull := openDevNull env;
  start := start env;
  kill := killed;
  wait := wait env;
  findProcess := found;
  signal := fun pid _ => signalled pid;
  randomString := randomString env;
  create := create env;
  write := write env;
  close := close env;
  remove := remove env;
  stat := stat env;
  download := download env;
  mkdirAll := mkdirAll env;
  extractTarGzip := extractTarGzip env
|}.

Definition withFiles (created written closed removed : option error) (env : OS) : OS := {|
  run := run env;
  combinedOutput := combinedOutput env;
  openDevNull := openDevNull env;
  start := start env;
  kill := kill env;
  wait := wait env;
  findProcess := findProcess env;
  signal := signal env;
  randomString := randomString env;
  create := fun _ => created;
  write := fun _ _ => written;
  close := fun _ => closed;
  remove := fun _ => removed;
  stat := stat env;
  download := download env;
  mkdirAll := mkdirAll env;
  extractTarGzip := extractTarGzip env
|}.

Definition withDisk (stats made : string -> option error) (downloaded : option error)
    (extracted : option (list string) * option error) (env : OS) : OS := {|
  run := run env;
  combinedOutput := combinedOutput env;
  openDevNull := openDevNull env;
  start := start env;
  kill := kill env;
  wait := wait env;
  findProcess := findProcess env;
  signal := signal env;
  randomString := randomString env;
  create := create env;
  write := write env;
  close := close env;
  remove := remove env;
  stat := stats;
  download := fun _ _ => downloaded;
  mkdirAll := made;
  extractTarGzip := fun _ _ => extracted
|}.

Definition withRandomString (answer : nat -> string) (env : OS) : OS := {|
  run := run env;
  combinedOutput := combinedOutput env;
  openDevNull := openDevNull env;
  start := start env;
  kill := kill env;
  wait := wait env;
  findProcess := findProcess env;
  signal := signal env;
  randomString := answer;
  create := create env;
  write := write env;
  close := close env;
  remove := remove env;
  stat := stat env;
  download := download env;
  mkdirAll := mkdirAll env;
  extractTarGzip := extractTarGzip env
|}.

(** A file system on which everything works, one on which the copy
    fails, and a server that answers 404. *)
Definition goodFiles : MoveFileModel.Files := {|
  MoveFileModel.openAnswer := fun _ => None;
  MoveFileModel.statAnswer := fun _ => MoveFileModel.StatOk 33188;
  MoveFileModel.openFileAnswer := fun _ _ => None;
  MoveFileModel.copyAnswer := fun _ _ => None;
  MoveFileModel.closeAnswer := fun _ => None;
  MoveFileModel.removeAnswer := fun _ => None
|}.

Definition diskFull : MoveFileModel.Files := {|
  MoveFileModel.openAnswer := fun _ => None;
  MoveFileModel.statAnswer := fun _ => MoveFileModel.StatOk 33188;
  MoveFileModel.openFileAnswer := fun _ _ => None;
  MoveFileModel.copyAnswer := fun _ _ => Some (SysErr "no space left on device");
  MoveFileModel.closeAnswer := fun _ => None;
  MoveFileModel.removeAnswer := fun _ => None
|}.

Definition notFound : urlkit.Net := {|
  urlkit.createAnswer := fun _ => None;
  urlkit.getAnswer := fun _ => urlkit.Response 404 "404 Not Found";
  urlkit.copyAnswer := fun _ => None
|}.

Definition served : urlkit.Net := {|
  urlkit.createAnswer := fun _ => None;
  urlkit.getAnswer := fun _ => urlkit.Response 200 "200 OK";
  urlkit.copyAnswer := fun _ => None
|}.

(** Nothing is on disk yet. *)
Definition nothingThere (path : string) : option error :=
  Some (SysErr "no such file or directory").

Definition denied : error := SysErr "permission denied".

(** * Properties *)

(** Unfold the monad so that a method becomes a nest of matches. *)
Ltac unfold_monad :=
  unfold outcome, after, traceOf, emit, get, modify, panic, fatal, defer,
    mbind, mret, M_bind, M_ret in *;
  unfold perform in *; cbn [fst snd] in *.

Lemma exitCodeIs_true code err : exitCodeIs code err = true <-> err = ExitError code.
Proof.
  destruct err as [msg|exitCode|fmt ops]; cbn; try (split; discriminate).
  rewrite Z.eqb_eq. split; [intros ->; reflexivity | intros H; inversion H; reflexivity].
Qed.

(** ** White-space splitting *)




(** ** The scanning loop of [AddFile] *)




(** ** AddFile *)




(** ** ListPinsByType *)

Lemma matchIgnored_labels part :
  matchIgnored part ignorePartArr false = isLabel part.
Proof.
  unfold isLabel. cbn.
  destruct (part =? "recursive"), (part =? "indirect"), (part =? "direct"); reflexivity.
Qed.

Lemma collectCids_filter parts : forall cids,
  collectCids parts cids false = cids ++ List.filter (fun p => negb (isLabel p)) parts.
Proof.
  induction parts as [|part rest IH]; intros cids; cbn [collectCids List.filter].
  - symmetry. apply app_nil_r.
  - rewrite matchIgnored_labels, IH.
    destruct (isLabel part); cbn [negb]; [reflexivity|].
    rewrite <- app_assoc. reflexivity.
Qed.

(** C5: on the success path the list returned by [ListPinsByType] is the
    sequence of white-space separated tokens of the output without the
    tokens equal to [recursive], [indirect] or [direct], in the order of
    the output; none of the three words is an entry of it. *)
Theorem ListPinsByType_drops_labels
    (env : OS) (w : ipfsCliWrapper) (t : Trace) (typeID output : string) :
  combinedOutput env (pinLsArgv typeID) = (output, None) ->
  exists cids,
    outcome (ListPinsByType typeID env w t) = Done (Some cids, None) /\
    cids = List.filter (fun p => negb (isLabel p)) (Fields output) /\
    ~ In "recursive" cids /\ ~ In "indirect" cids /\ ~ In "direct" cids.
Proof.
  intros Hout. eexists. split; [|split; [reflexivity|]].
  - unfold ListPinsByType. unfold_monad. rewrite Hout.
    rewrite collectCids_filter. reflexivity.
  - repeat split; intros Hin; apply filter_In in Hin as [_ Hin]; discriminate Hin.
Qed.

Lemma ListPinsByType_drops_labels_witness :
  exists cids,
    outcome (ListPinsByType "all"
               (withCombinedOutput ("bafyA recursive bafyB indirect direct bafyC", None) quietOS)
               freshWrapper [])
    = Done (Some cids, None) /\
    cids = ["bafyA"; "bafyB"; "bafyC"].
Proof.
  destruct (ListPinsByType_drops_labels
              (withCombinedOutput ("bafyA recursive bafyB indirect direct bafyC", None) quietOS)
              freshWrapper [] "all" "bafyA recursive bafyB indirect direct bafyC" eq_refl)
    as (cids & Hrun & Hcids & _).
  exists cids. split; [exact Hrun | exact Hcids].
Defined.

(** ** getDownloadURL *)

Lemma urls_nonempty :
  map_Forall (fun _ m => map_Forall (fun _ url : string => url <> "") m) urlsMap.
Proof. apply (bool_decide_unpack _). vm_compute. exact I. Qed.

Lemma lookup_outside_table (os arch : string) :
  ~ inTable os arch -> (urlsMap !!! os) !! arch = None.
Proof.
  intros Hnot. unfold inTable in Hnot.
  destruct (urlsMap !! os) as [m|] eqn:Hos.
  - rewrite (lookup_total_correct _ _ _ Hos).
    destruct (m !! arch) as [url|] eqn:Harch; [|reflexivity].
    exfalso. apply Hnot. exists m. split; [reflexivity|]. rewrite Harch. eauto.
  - unfold lookup_total, map_lookup_total. rewrite Hos. cbn. apply lookup_empty.
Qed.

Lemma CreateDirs_all_made env w made :
  Forall (fun dirPath => mkdirAll env dirPath = None) made ->
  forall t, exists added,
    oskit.CreateDirsIfDoesNotExist made env w t = (Done None, w, t ++ added) /\
    effects added = map MkdirAll made.
Proof.
  induction 1 as [|dirPath made' Hthis _ IH]; intros t;
    cbn [oskit.CreateDirsIfDoesNotExist].
  - exists []. rewrite app_nil_r. split; reflexivity.
  - unfold_monad. rewrite Hthis.
    destruct (IH (t ++ [{| action := MkdirAll dirPath; wrapper := w |}]))
      as (added & -> & Hacts).
    eexists (_ :: added). rewrite <- app_assoc. split; [reflexivity|].
    unfold effects, actions in *. cbn. rewrite Hacts. reflexivity.
Qed.

Lemma effects_app (xs ys : Trace) : effects (xs ++ ys) = effects xs ++ effects ys.
Proof. unfold effects, actions. rewrite map_app. apply List.filter_app. Qed.

(** C6, as stated, fails: the lookup is not the first thing the
    provisioning does.  On a machine with nothing on disk and a platform
    outside the table, [NewWrapper] with the option [WithDenylist] of the
    example program has made three directories, looked for the denylist,
    downloaded it, and looked for the binary and for the archive, when
    the lookup fails and the program exits.  Called on its own,
    [downloadAndUnzip] has looked for the archive on disk before the
    lookup. *)
Lemma getDownloadURL_activity_before_failure_counterexample :
  let env := withDisk nothingThere (fun _ => None) None (None, None) quietOS in
  let options := [WithDenylist "badbits.deny" "https://badbits.dwebops.pub/badbits.deny"] in
  let started := NewWrapper "plan9" "amd64" None options env freshWrapper [] in
  let fetched := downloadAndUnzip "plan9" "amd64" env freshWrapper [] in
  ~ inTable "plan9" "amd64" /\
  outcome started = Fatal "failed to get ipfs binary from url: %v" /\
  effects (traceOf started)
  = [MkdirAll "./bin"; MkdirAll "./bin/kubo/data"; MkdirAll "./bin/kubo/data/denylists/";
     Stat "./bin/kubo/data/denylists/badbits.deny";
     Download "https://badbits.dwebops.pub/badbits.deny"
              "./bin/kubo/data/denylists/badbits.deny";
     Stat "./bin/kubo/ipfs"; Stat "./bin/ipfs.tar.gz"] /\
  outcome fetched
  = Done (Some (Errorf "failed finding download link: %v"
                  [OpError (unsupportedPlatform "plan9" "amd64")])) /\
  effects (traceOf fetched) = [Stat "./bin/ipfs.tar.gz"] /\
  effects (traceOf started) <> [] /\ effects (traceOf fetched) <> [].
Proof.
  cbv zeta. split.
  { intros (m & Hos & _). vm_compute in Hos. discriminate Hos. }
  repeat split; try reflexivity; vm_compute; discriminate.
Qed.

(** C6, amended: for a pair of the table [getDownloadURL] returns a URL
    that is not empty and a nil error; for any other pair it returns the
    empty string and the unsupported-platform error.  The lookup itself
    performs no action: the trace (so the network and the disk) and the
    wrapper are as before the call.  It is not the first step of the
    provisioning, though.  For a pair outside the table, when the archive
    is not on disk, [downloadAndUnzip] returns the error after it has
    looked for the archive and done nothing else; and [NewWrapper], once
    its three directories are made and its options, whatever they are,
    have run and left that pair in the wrapper, looks for the binary and
    for the archive and exits: between the options and the exit nothing
    is downloaded, made, extracted, removed or run. *)
Theorem getDownloadURL_table
    (env : OS) (w : ipfsCliWrapper) (t : Trace) (osName archName : string) :
  (inTable osName archName ->
     exists url, url <> "" /\
       getDownloadURL osName archName env w t = (Done (url, None), w, t)) /\
  (~ inTable osName archName ->
     getDownloadURL osName archName env w t
     = (Done ("", Some (unsupportedPlatform osName archName)), w, t) /\
     (forall e,
        stat env zippedBinaryFilePath = Some e ->
        exists added,
          downloadAndUnzip osName archName env w t
          = (Done (Some (Errorf "failed finding download link: %v"
                           [OpError (unsupportedPlatform osName archName)])),
             w, t ++ added) /\
          effects added = [Stat zippedBinaryFilePath]) /\
     (forall GOOS GOARCH stdoutPipe options cfg t' e1 e2,
        Forall (fun dirPath => mkdirAll env dirPath = None) dirs ->
        applyOptions options env (newStruct GOOS GOARCH)
          (traceOf (oskit.CreateDirsIfDoesNotExist dirs env w t))
        = (Done tt, cfg, t') ->
        os cfg = osName ->
        arch cfg = archName ->
        stat env IPFSBinaryFilePath = Some e1 ->
        stat env zippedBinaryFilePath = Some e2 ->
        exists made added,
          traceOf (oskit.CreateDirsIfDoesNotExist dirs env w t) = t ++ made /\
          effects made = map MkdirAll dirs /\
          NewWrapper GOOS GOARCH stdoutPipe options env w t
          = (Fatal "failed to get ipfs binary from url: %v", cfg, t' ++ added) /\
          effects added = [Stat IPFSBinaryFilePath; Stat zippedBinaryFilePath])).
Proof.
  split.
  - unfold getDownloadURL. intros (m & Hos & [url Harch]). exists url. split.
    + apply (map_Forall_lookup_1 _ _ _ _ urls_nonempty) in Hos.
      apply (map_Forall_lookup_1 _ _ _ _ Hos) in Harch. exact Harch.
    + rewrite (lookup_total_correct _ _ _ Hos), Harch. reflexivity.
  - intros Hnot. pose proof (lookup_outside_table osName archName Hnot) as Hlookup.
    split; [|split].
    + unfold getDownloadURL. rewrite Hlookup. reflexivity.
    + intros e Harchive. unfold downloadAndUnzip, getDownloadURL. unfold_monad.
      rewrite Harchive, Hlookup. eexists [_; _; _]. rewrite <- ?app_assoc.
      split; reflexivity.
    + intros GOOS GOARCH stdoutPipe options cfg t' e1 e2
             Hdirs Hoptions Hos Harch Hbinary Harchive.
      destruct (CreateDirs_all_made env w dirs Hdirs t) as (made & Hmade & Heffects).
      exists made. unfold traceOf in Hoptions |- *. rewrite Hmade in Hoptions |- *.
      cbn [snd] in Hoptions |- *.
      unfold NewWrapper, provision, downloadAndUnzip, getDownloadURL.
      fold dirs. unfold_monad. rewrite Hmade. cbn beta iota. rewrite Hoptions.
      cbn beta iota. rewrite Hbinary. cbn beta iota. rewrite Harchive. cbn beta iota.
      rewrite Hos, Harch, Hlookup.
      eexists [_; _; _; _]. rewrite <- ?app_assoc.
      split; [reflexivity|]. split; [exact Heffects|]. split; reflexivity.
Qed.

Lemma getDownloadURL_table_witness :
  (exists url, url <> "" /\
     getDownloadURL "linux" "amd64" quietOS freshWrapper []
     = (Done (url, None), freshWrapper, [])) /\
  getDownloadURL "plan9" "amd64" quietOS freshWrapper []
  = (Done ("", Some (unsupportedPlatform "plan9" "amd64")), freshWrapper, []) /\
  exists t' added,
    NewWrapper "plan9" "amd64" None
      [WithDenylist "badbits.deny" "https://badbits.dwebops.pub/badbits.deny"]
      (withDisk nothingThere (fun _ => None) None (None, None) quietOS) freshWrapper []
    = (Fatal "failed to get ipfs binary from url: %v", newStruct "plan9" "amd64",
       t' ++ added) /\
    effects added = [Stat IPFSBinaryFilePath; Stat zippedBinaryFilePath].
Proof.
  assert (Hnot : ~ inTable "plan9" "amd64").
  { intros (m & Hos & _). vm_compute in Hos. discriminate Hos. }
  split; [|split].
  - apply (proj1 (getDownloadURL_table quietOS freshWrapper [] "linux" "amd64")).
    eexists. split; [vm_compute; reflexivity|]. vm_compute. eauto.
  - exact (proj1 (proj2 (getDownloadURL_table quietOS freshWrapper [] "plan9" "amd64")
                    Hnot)).
  - destruct (proj2 (proj2 (proj2 (getDownloadURL_table
                (withDisk nothingThere (fun _ => None) None (None, None) quietOS)
                freshWrapper [] "plan9" "amd64") Hnot))
              "plan9" "amd64" None
              [WithDenylist "badbits.deny" "https://badbits.dwebops.pub/badbits.deny"]
              (newStruct "plan9" "amd64") _
              (SysErr "no such file or directory") (SysErr "no such file or directory")
              ltac:(repeat constructor) eq_refl eq_refl eq_refl eq_refl eq_refl)
      as (made & added & _ & _ & Hrun & Heffects).
    eexists _, added. split; [exact Hrun | exact Heffects].
Defined.

(** ** StartDaemonInBackground *)

(** C1: when the lookup of processes named [ipfs] reports a running one,
    [StartDaemonInBackground] sets the running flag, returns a nil error
    and performs nothing but the lookup itself and a log line: the child
    process is not started. *)
Theorem StartDaemonInBackground_adopts_running
    (env : OS) (w : ipfsCliWrapper) (t : Trace) (err : option error) :
  outcome (oskit.IsProgramRunning "ipfs" env w t) = Done (true, err) ->
  exists added,
    StartDaemonInBackground env w t = (Done None, setRunning true w, t ++ added) /\
    isDaemonRunning (after (StartDaemonInBackground env w t)) = true /\
    actions added =
      [Run (oskit.pgrep "ipfs");
       Log Debug "ipfs daemon is already running and waiting for api call from your app"] /\
    ~ In Start (actions added).
Proof.
  unfold StartDaemonInBackground, oskit.IsProgramRunning. unfold_monad.
  destruct (run env (oskit.pgrep "ipfs")) as [out [e|]]; cbn.
  - destruct (exitCodeIs 1 e); discriminate.
  - destruct (negb (TrimSpace out =? "")); [|discriminate].
    intros _. eexists. split; [rewrite <- app_assoc; reflexivity|].
    cbn. repeat split. intros [H|[H|[]]]; discriminate H.
Qed.

Lemma StartDaemonInBackground_adopts_running_witness :
  exists added,
    StartDaemonInBackground (withRun ("4242", None) quietOS) freshWrapper []
    = (Done None, setRunning true freshWrapper, added) /\
    ~ In Start (actions added).
Proof.
  destruct (StartDaemonInBackground_adopts_running
              (withRun ("4242", None) quietOS) freshWrapper [] None eq_refl)
    as (added & Hrun & _ & _ & Hno).
  exists added. split; [exact Hrun | exact Hno].
Defined.

(** C7: when [StartDaemonInBackground] returns an error, because the
    lookup failed, because [/dev/null] could not be opened or because the
    child could not be started, the running flag is what it was before the
    call (so still unset for a wrapper that was not started). *)
Theorem StartDaemonInBackground_error_keeps_flag
    (env : OS) (w : ipfsCliWrapper) (t : Trace) (e : error) :
  outcome (StartDaemonInBackground env w t) = Done (Some e) ->
  isDaemonRunning (after (StartDaemonInBackground env w t)) = isDaemonRunning w.
Proof.
  unfold StartDaemonInBackground, oskit.IsProgramRunning, startCommand. unfold_monad.
  destruct (run env (oskit.pgrep "ipfs")) as [out [e'|]]; cbn.
  - destruct (exitCodeIs 1 e'); cbn; [|reflexivity].
    destruct (isDaemonRunningContinously w); cbn.
    + destruct (openDevNull env); cbn; [reflexivity|].
      destruct (start env); cbn; [discriminate | reflexivity].
    + destruct (start env); cbn; [discriminate | reflexivity].
  - destruct (negb (TrimSpace out =? "")); cbn; [discriminate|].
    destruct (isDaemonRunningContinously w); cbn.
    + destruct (openDevNull env); cbn; [reflexivity|].
      destruct (start env); cbn; [discriminate | reflexivity].
    + destruct (start env); cbn; [discriminate | reflexivity].
Qed.

Lemma StartDaemonInBackground_error_keeps_flag_witness :
  isDaemonRunning
    (after (StartDaemonInBackground
              (withRun ("", Some (SysErr "exec: pgrep: executable file not found in $PATH")) quietOS)
              freshWrapper []))
  = false /\
  isDaemonRunning
    (after (StartDaemonInBackground
              (withStart (StartFailed (SysErr "fork/exec ./bin/kubo/ipfs: permission denied")) quietOS)
              freshWrapper []))
  = false.
Proof.
  split.
  - exact (StartDaemonInBackground_error_keeps_flag
             (withRun ("", Some (SysErr "exec: pgrep: executable file not found in $PATH")) quietOS)
             freshWrapper [] _ eq_refl).
  - exact (StartDaemonInBackground_error_keeps_flag
             (withStart (StartFailed (SysErr "fork/exec ./bin/kubo/ipfs: permission denied")) quietOS)
             freshWrapper [] _ eq_refl).
Defined.

(** ** TerminateProgram *)

(** Whatever [pgrep] printed, the loop leaves the wrapper alone and does
    gentle actions only. *)
Lemma terminateEach_gentle env w pidStrs : forall t,
  exists r added,
    oskit.terminateEach pidStrs env w t = (Done r, w, t ++ added) /\
    Forall gentle (actions added).
Proof.
  induction pidStrs as [|pidStr rest IH]; intros t; cbn [oskit.terminateEach].
  - exists None, []. rewrite app_nil_r. split; [reflexivity | constructor].
  - destruct (Atoi pidStr) as [pid|].
    2:{ eexists _, []. rewrite app_nil_r. split; [reflexivity | constructor]. }
    unfold_monad. destruct (findProcess env pid).
    { eexists _, [_]. split; [reflexivity|]. repeat constructor. }
    destruct (signal env pid SIGTERM);
      match goal with
      | |- context [oskit.terminateEach rest env w ?t'] =>
          destruct (IH t') as (r & added & -> & Hgentle)
      end;
      exists r; eexists (_ :: _ :: _ :: added);
      (split; [rewrite <- !app_assoc; reflexivity | repeat constructor; exact Hgentle]).
Qed.

(** When every token parses and every process is found, each process is
    sent [SIGTERM], in the order of the output, and the loop returns nil. *)
Lemma terminateEach_signals env w pidStrs pids :
  Forall2 (fun pidStr pid => Atoi pidStr = Some pid) pidStrs pids ->
  Forall (fun pid => findProcess env pid = None) pids ->
  forall t, exists added,
    oskit.terminateEach pidStrs env w t = (Done None, w, t ++ added) /\
    signalsSent (actions added) = map (fun pid => (pid, SIGTERM)) pids.
Proof.
  induction 1 as [|pidStr pid rest pids' Hparse _ IH]; intros Hfound t;
    cbn [oskit.terminateEach].
  - exists []. rewrite app_nil_r. split; reflexivity.
  - inversion Hfound as [|? ? Hpid Hrest]; subst.
    rewrite Hparse. unfold_monad. rewrite Hpid.
    destruct (signal env pid SIGTERM);
      match goal with
      | |- context [oskit.terminateEach rest env w ?t'] =>
          destruct (IH Hrest t') as (added & -> & Hsent)
      end;
      eexists (_ :: _ :: _ :: added);
      (split; [rewrite <- !app_assoc; reflexivity | cbn; rewrite <- Hsent; reflexivity]).
Qed.

Lemma TerminateProgram_gentle env w name t :
  exists r added,
    oskit.TerminateProgram name env w t = (Done r, w, t ++ added) /\
    Forall gentle (tl (actions added)) /\
    hd_error (actions added) = Some (Run (oskit.pgrep name)).
Proof.
  unfold oskit.TerminateProgram. unfold_monad.
  destruct (run env (oskit.pgrep name)) as [out [e|]].
  - eexists _, [_]. repeat split. constructor.
  - destruct (terminateEach_gentle env w (Fields out)
                (t ++ [{| action := Run (oskit.pgrep name); wrapper := w |}]))
      as (r & added & -> & Hgentle).
    exists r. eexists (_ :: added). rewrite <- app_assoc. repeat split. exact Hgentle.
Qed.

Lemma TerminateProgram_signals env w name t out pids :
  run env (oskit.pgrep name) = (out, None) ->
  Forall2 (fun pidStr pid => Atoi pidStr = Some pid) (Fields out) pids ->
  Forall (fun pid => findProcess env pid = None) pids ->
  exists added,
    oskit.TerminateProgram name env w t = (Done None, w, t ++ added) /\
    signalsSent (actions added) = map (fun pid => (pid, SIGTERM)) pids.
Proof.
  intros Hrun Hparse Hfound.
  unfold oskit.TerminateProgram. unfold_monad. rewrite Hrun.
  destruct (terminateEach_signals env w _ _ Hparse Hfound
              (t ++ [{| action := Run (oskit.pgrep name); wrapper := w |}]))
    as (added & -> & Hsent).
  eexists (_ :: added). rewrite <- app_assoc. split; [reflexivity | exact Hsent].
Qed.

Lemma gentle_not_Wait acts : Forall gentle acts -> ~ In Wait acts.
Proof.
  intros Hall Hin. rewrite List.Forall_forall in Hall. exact (Hall _ Hin).
Qed.

Lemma gentle_only_SIGTERM acts pid sig :
  Forall gentle acts -> In (pid, sig) (signalsSent acts) -> sig = SIGTERM.
Proof.
  induction 1 as [|a rest Ha _ IH]; cbn; [intros []|].
  intros Hin. apply in_app_or in Hin as [Hin|Hin]; [|exact (IH Hin)].
  destruct a; cbn in Hin; try contradiction.
  destruct Hin as [Heq|[]]. inversion Heq; subst.
  destruct sig; [reflexivity | contradiction].
Qed.

(** ** ShutdownDaemon and ForceShutdownDaemon *)

(** C2: in continuous mode [ShutdownDaemon] returns a nil error, leaves
    every field of the wrapper as it was and does nothing but write a log
    line: no signal is sent and nothing is waited for.  In that mode it is
    [ForceShutdownDaemon] that signals the processes: each process id
    printed by the lookup is sent a signal. *)
Theorem ShutdownDaemon_continuous_noop
    (env : OS) (w : ipfsCliWrapper) (t : Trace) :
  isDaemonRunningContinously w = true ->
  (exists added,
     ShutdownDaemon env w t = (Done None, w, t ++ added) /\
     Forall (fun a => ~ touchesProcess a) (actions added)) /\
  (forall out pids,
     run env (oskit.pgrep "ipfs") = (out, None) ->
     Forall2 (fun pidStr pid => Atoi pidStr = Some pid) (Fields out) pids ->
     Forall (fun pid => findProcess env pid = None) pids ->
     exists added,
       traceOf (ForceShutdownDaemon env w t) = t ++ added /\
       forall pid, In pid pids -> In (SendSignal pid SIGTERM) (actions added)).
Proof.
  intros Hcont. split.
  - unfold ShutdownDaemon. unfold_monad. rewrite Hcont.
    eexists [_]. split; [reflexivity|]. repeat constructor. intros [].
  - intros out pids Hrun Hparse Hfound.
    unfold ForceShutdownDaemon. unfold_monad. rewrite Hcont.
    destruct (TerminateProgram_signals env (setRunning false w) "ipfs" t out pids
                Hrun Hparse Hfound) as (added & -> & Hsent).
    exists added. split; [reflexivity|].
    intros pid Hin.
    assert (Hsig : In (pid, SIGTERM) (signalsSent (actions added))).
    { rewrite Hsent. apply (in_map (fun p => (p, SIGTERM))), Hin. }
    unfold signalsSent in Hsig. apply in_flat_map in Hsig as (a & Ha & Hpair).
    destruct a; cbn in Hpair; try contradiction.
    destruct Hpair as [Heq|[]]. inversion Heq; subst. exact Ha.
Qed.

Lemma ShutdownDaemon_continuous_noop_witness :
  exists added,
    ShutdownDaemon quietOS (setRunning true continuousWrapper) []
    = (Done None, setRunning true continuousWrapper, added) /\
    Forall (fun a => ~ touchesProcess a) (actions added).
Proof.
  exact (proj1 (ShutdownDaemon_continuous_noop
                  quietOS (setRunning true continuousWrapper) [] eq_refl)).
Defined.

(** C3: outside continuous mode [ShutdownDaemon] clears the running flag
    before it signals the child: the flag is already unset when [Kill]
    and [Wait] are performed, and it is unset afterwards however the call
    ends.  When the child exists and is killed, a wait error that is an
    exit error with exit code [-1] (death by signal) gives a nil error,
    and any other wait error is returned to the caller, wrapped in the
    message [Command exited with error]. *)
Theorem ShutdownDaemon_ephemeral
    (env : OS) (w : ipfsCliWrapper) (t : Trace) :
  isDaemonRunningContinously w = false ->
  exists added,
    traceOf (ShutdownDaemon env w t) = t ++ added /\
    isDaemonRunning (after (ShutdownDaemon env w t)) = false /\
    Forall (fun o => touchesProcess (action o) -> isDaemonRunning (wrapper o) = false)
           added /\
    (forall pid, Process (ipfsDaemonCmd w) = Some pid ->
       hd_error (actions added) = Some Kill /\
       (kill env = None ->
          (wait env = Some (ExitError (-1)) ->
             In Wait (actions added) /\
             outcome (ShutdownDaemon env w t) = Done None) /\
          (forall e, wait env = Some e -> e <> ExitError (-1) ->
             In Wait (actions added) /\
             outcome (ShutdownDaemon env w t)
             = Done (Some (Errorf "Command exited with error: %v\n" [OpError e]))))).
Proof.
  intros Hcont. unfold ShutdownDaemon. unfold_monad. rewrite Hcont.
  destruct (Process (ipfsDaemonCmd w)) as [pid0|].
  2:{ exists []. rewrite app_nil_r.
      split; [reflexivity|]. split; [reflexivity|]. split; [constructor|].
      intros pid Hpid. discriminate Hpid. }
  destruct (kill env) as [killErr|].
  { eexists [_; _]. rewrite <- app_assoc.
    split; [reflexivity|]. split; [reflexivity|].
    split; [repeat constructor|].
    intros pid _. split; [reflexivity|]. intros Hkill. discriminate Hkill. }
  destruct (wait env) as [waitErr|].
  2:{ eexists [_; _]. rewrite <- app_assoc.
      split; [reflexivity|]. split; [reflexivity|].
      split; [repeat constructor|].
      intros pid _. split; [reflexivity|]. intros _.
      split; [intros Hwait; discriminate Hwait | intros e Hwait; discriminate Hwait]. }
  destruct (exitCodeIs (-1) waitErr) eqn:Hcode.
  - apply exitCodeIs_true in Hcode as ->.
    eexists [_; _; _]. rewrite <- !app_assoc.
    split; [reflexivity|]. split; [reflexivity|].
    split; [repeat constructor; cbn; tauto|].
    intros pid _. split; [reflexivity|]. intros _. split.
    + intros _. split; [cbn; tauto | reflexivity].
    + intros e Hwait Hne. inversion Hwait; subst. contradiction Hne. reflexivity.
  - eexists [_; _; _]. rewrite <- !app_assoc.
    split; [reflexivity|]. split; [reflexivity|].
    split; [repeat constructor; cbn; tauto|].
    intros pid _. split; [reflexivity|]. intros _. split.
    + intros Hwait. inversion Hwait; subst. discriminate Hcode.
    + intros e Hwait _. inversion Hwait; subst. split; [cbn; tauto | reflexivity].
Qed.

Lemma ShutdownDaemon_ephemeral_witness :
  outcome (ShutdownDaemon quietOS startedWrapper []) = Done None /\
  outcome (ShutdownDaemon (withWait (Some (ExitError 2)) quietOS) startedWrapper [])
  = Done (Some (Errorf "Command exited with error: %v\n" [OpError (ExitError 2)])) /\
  isDaemonRunning (after (ShutdownDaemon (withWait (Some (ExitError 2)) quietOS) startedWrapper []))
  = false.
Proof.
  destruct (ShutdownDaemon_ephemeral quietOS startedWrapper [] eq_refl)
    as (added1 & _ & _ & _ & Hkilled).
  destruct (ShutdownDaemon_ephemeral (withWait (Some (ExitError 2)) quietOS)
              startedWrapper [] eq_refl)
    as (added2 & _ & Hflag & _ & Hfailed).
  split; [|split].
  - exact (proj2 (proj1 (proj2 (Hkilled 4242%Z eq_refl) eq_refl) eq_refl)).
  - refine (proj2 (proj2 (proj2 (Hfailed 4242%Z eq_refl) eq_refl) (ExitError 2) eq_refl _)).
    discriminate.
  - exact Hflag.
Defined.

(** C8: in continuous mode [ForceShutdownDaemon] clears the running flag
    and hands over to [TerminateProgram]: nothing is waited for, no signal
    other than [SIGTERM] is sent, and when the lookup prints process ids
    (each token a number, each process found) every one of them is sent
    [SIGTERM], in that order, and the error is nil.  Outside continuous
    mode [ForceShutdownDaemon] is [ShutdownDaemon]. *)
Theorem ForceShutdownDaemon_terminates_by_name
    (env : OS) (w : ipfsCliWrapper) (t : Trace) :
  (isDaemonRunningContinously w = true ->
     exists r added,
       ForceShutdownDaemon env w t = (Done r, setRunning false w, t ++ added) /\
       isDaemonRunning (after (ForceShutdownDaemon env w t)) = false /\
       ~ In Wait (actions added) /\
       (forall pid sig, In (pid, sig) (signalsSent (actions added)) -> sig = SIGTERM) /\
       (forall out pids,
          run env (oskit.pgrep "ipfs") = (out, None) ->
          Forall2 (fun pidStr pid => Atoi pidStr = Some pid) (Fields out) pids ->
          Forall (fun pid => findProcess env pid = None) pids ->
          r = None /\
          signalsSent (actions added) = map (fun pid => (pid, SIGTERM)) pids)) /\
  (isDaemonRunningContinously w = false ->
     ForceShutdownDaemon env w t = ShutdownDaemon env w t).
Proof.
  split; intros Hcont.
  - destruct (TerminateProgram_gentle env (setRunning false w) "ipfs" t)
      as (r & added & Hrun & Hgentle & Hfirst).
    assert (Hforce : ForceShutdownDaemon env w t = (Done r, setRunning false w, t ++ added)).
    { unfold ForceShutdownDaemon. unfold_monad. rewrite Hcont. exact Hrun. }
    exists r, added. rewrite Hforce.
    destruct (actions added) as [|first others] eqn:Hacts; [discriminate Hfirst|].
    cbn in Hfirst, Hgentle. inversion Hfirst; subst first.
    split; [reflexivity|]. split; [reflexivity|]. split; [|split].
    + intros [Hin|Hin]; [discriminate Hin|]. exact (gentle_not_Wait _ Hgentle Hin).
    + intros pid sig Hin. cbn in Hin. exact (gentle_only_SIGTERM _ _ _ Hgentle Hin).
    + intros out pids Hout Hparse Hfound.
      destruct (TerminateProgram_signals env (setRunning false w) "ipfs" t out pids
                  Hout Hparse Hfound) as (added' & Hrun' & Hsent).
      rewrite Hrun in Hrun'. inversion Hrun' as [[Hr Hadded]].
      apply app_inv_head in Hadded. subst added'.
      rewrite Hacts in Hsent. split; [reflexivity | exact Hsent].
  - unfold ForceShutdownDaemon. unfold_monad. rewrite Hcont. reflexivity.
Qed.

Lemma ForceShutdownDaemon_terminates_by_name_witness :
  (exists r added,
     ForceShutdownDaemon (withRun (twoDaemons, None) quietOS)
       (setRunning true continuousWrapper) []
     = (Done r, setRunning false (setRunning true continuousWrapper), added) /\
     r = None /\
     signalsSent (actions added) = [(101%Z, SIGTERM); (202%Z, SIGTERM)]) /\
  ForceShutdownDaemon quietOS startedWrapper [] = ShutdownDaemon quietOS startedWrapper [].
Proof.
  split.
  - destruct (proj1 (ForceShutdownDaemon_terminates_by_name
                       (withRun (twoDaemons, None) quietOS)
                       (setRunning true continuousWrapper) []) eq_refl)
      as (r & added & Hrun & _ & _ & _ & Hall).
    exists r, added. split; [exact Hrun|].
    apply (Hall twoDaemons [101%Z; 202%Z] eq_refl).
    + repeat constructor.
    + repeat constructor.
  - exact (proj2 (ForceShutdownDaemon_terminates_by_name quietOS startedWrapper [])
             eq_refl).
Defined.

(** ** AddFileContent *)

(** X29: the later [AddFileContent] does what C9 asks: once the temporary
    file is written and closed, it is handed to [AddFile] and then
    removed, whether [AddFile] failed or not; the removal is the last
    action but for its own log line. *)
Lemma AddFileContent_removes_tempfile
    (env : OS) (w : ipfsCliWrapper) (t : Trace) (content : list byte) :
  let filepath := tempfile (randomString env 5) in
  create env filepath = None ->
  write env filepath content = None ->
  close env filepath = None ->
  exists added line,
    traceOf (AddFileContent (Some content) env w t) = t ++ added /\
    actions added =
      [RandomString 5; Create filepath; Write filepath content; Close filepath;
       CombinedOutput (addArgv filepath); Log (fst line) (snd line)] ++
      (if combinedOutput env (addArgv filepath) is (_, Some _)
       then [Log Error "failed adding file to ipfs"] else []) ++
      [Remove filepath] ++
      (if remove env filepath is Some _
       then [Log Error "failed removing from local filesystem"] else []).
Proof.
  intros filepath Hcreate Hwrite Hclose.
  unfold AddFileContent, AddFile. unfold_monad. fold filepath.
  rewrite Hcreate, Hwrite, Hclose.
  destruct (combinedOutput env (addArgv filepath)) as [output [e|]];
    destruct (remove env filepath) as [rmErr|];
    eexists _, (_, _); rewrite <- !app_assoc;
    (split; [reflexivity|]); cbn; reflexivity.
Qed.

(** The earlier [AddFileContent] removes the file only after [AddFile]
    has succeeded: when [AddFile] fails the call returns at once. *)
Lemma CommandsGo_AddFileContent_failure_path
    (env : OS) (w : ipfsCliWrapper) (t : Trace)
    (filename output : string) (content : list byte) (e : error) :
  filename <> "" ->
  create env ("./" +:+ filename) = None ->
  write env ("./" +:+ filename) content = None ->
  close env ("./" +:+ filename) = None ->
  combinedOutput env (CommandsGo.addArgv filename) = (output, Some e) ->
  exists added,
    traceOf (CommandsGo.AddFileContent filename (Some content) env w t) = t ++ added /\
    actions added =
      [Create ("./" +:+ filename); Write ("./" +:+ filename) content;
       Close ("./" +:+ filename); CombinedOutput (CommandsGo.addArgv filename);
       Log Error "error adding file to ipfs"; Log Error "failed adding file to ipfs"].
Proof.
  intros Hname Hcreate Hwrite Hclose Hadd.
  unfold CommandsGo.AddFileContent, CommandsGo.AddFile. unfold_monad.
  destruct (String.eqb_spec filename "") as [->|_]; [contradiction|].
  rewrite Hcreate, Hwrite, Hclose, Hadd.
  eexists. rewrite <- !app_assoc. split; reflexivity.
Qed.

(** C9 does not hold of the earlier [AddFileContent] (file
    [commands.go]): with the file name [note.txt] and an [ipfs add] that
    fails, the file [./note.txt] is created, written and closed, the error
    of [AddFile] is returned, and no [Remove] is performed.  The later
    [AddFileContent] removes its file on the same failure. *)
Theorem CommandsGo_AddFileContent_leaves_file :
  outcome (CommandsGo.AddFileContent "note.txt" (Some hello) addFails freshWrapper [])
  = Done ("", Some (Errorf "failed to add file to ipfs: %v, output: %s"
                      [OpError (ExitError 1);
                       OpString "Error: ipfs daemon is not running"])) /\
  actions (traceOf (CommandsGo.AddFileContent "note.txt" (Some hello) addFails freshWrapper []))
  = [Create "./note.txt"; Write "./note.txt" hello; Close "./note.txt";
     CombinedOutput ["./bin/kubo/ipfs"; "add"; "note.txt"];
     Log Error "error adding file to ipfs"; Log Error "failed adding file to ipfs"] /\
  ~ In (Remove "./note.txt")
       (actions (traceOf (CommandsGo.AddFileContent "note.txt" (Some hello)
                            addFails freshWrapper []))) /\
  In (Remove "./ipfscliwrapper_tempfile_a1B2c")
     (actions (traceOf (AddFileContent (Some hello) addFails freshWrapper []))).
Proof.
  split; [reflexivity|]. split; [reflexivity|]. split.
  - cbn. intros Hin. repeat (destruct Hin as [Hin|Hin]; [discriminate Hin|]). exact Hin.
  - vm_compute. repeat (first [left; reflexivity | right]).
Qed.

(** C10: a nil content is refused before anything is done: the
    identifier is empty, the error is not nil, and neither the trace nor
    the wrapper has changed, so no file was created or written and no
    command was run.  The earlier [AddFileContent] refuses an empty file
    name in the same way, whatever the content, and a nil content
    whatever the name. *)
Theorem AddFileContent_rejects_missing
    (env : OS) (w : ipfsCliWrapper) (t : Trace) :
  AddFileContent None env w t
  = (Done ("", Some (Errorf "cannot have missing: %v" [OpString "fileContent"])), w, t) /\
  (forall fileContent,
     CommandsGo.AddFileContent "" fileContent env w t
     = (Done ("", Some (Errorf "cannot have missing: %v" [OpString "filename"])), w, t)) /\
  (forall filename, exists e,
     CommandsGo.AddFileContent filename None env w t = (Done ("", Some e), w, t)).
Proof.
  split; [reflexivity|]. split; [reflexivity|].
  intros filename. unfold CommandsGo.AddFileContent.
  destruct (filename =? ""); eexists; reflexivity.
Qed.

(** ** downloadAndUnzip *)

(** X30: where [getDownloadURL] is called: when the archive is not on disk and
    the platform is not in the table, [downloadAndUnzip] returns the
    error after two log lines and the [Stat] of the archive path; nothing
    is downloaded, made, extracted or removed. *)
Lemma downloadAndUnzip_unsupported
    (env : OS) (w : ipfsCliWrapper) (t : Trace) (osName archName : string) (e : error) :
  stat env zippedBinaryFilePath = Some e ->
  ~ inTable osName archName ->
  exists added,
    downloadAndUnzip osName archName env w t
    = (Done (Some (Errorf "failed finding download link: %v"
                     [OpError (unsupportedPlatform osName archName)])),
       w, t ++ added) /\
    actions added =
      [Log Debug "ipfs binary does not exist, need to fetch now...";
       Stat zippedBinaryFilePath;
       Log Error "failed finding download link"].
Proof.
  intros Hstat Hnot.
  unfold downloadAndUnzip, getDownloadURL. unfold_monad. rewrite Hstat.
  rewrite (lookup_outside_table osName archName Hnot).
  eexists. rewrite <- !app_assoc. split; reflexivity.
Qed.

(** * Further properties of the supervisor *)

(** ** White space: trimming and splitting agree *)

Lemma snoc_nonempty field c : snoc field c <> "".
Proof. destruct field; cbn; discriminate. Qed.

Lemma fieldsFrom_field_kept s : forall field,
  field <> "" -> fieldsFrom field 0 s <> [].
Proof.
  induction s as [|c rest IH]; intros field Hfield; cbn [fieldsFrom].
  - destruct field; [contradiction | discriminate].
  - destruct (spaceWidth (String c rest)).
    + apply IH, snoc_nonempty.
    + destruct field; [contradiction | discriminate].
Qed.

Lemma trimLeft_empty_iff s : forall skip,
  trimLeft skip s = "" <-> fieldsFrom "" skip s = [].
Proof.
  induction s as [|c rest IH]; intros skip; cbn [trimLeft fieldsFrom].
  - cbn. tauto.
  - destruct skip as [|more]; [|apply IH].
    destruct (spaceWidth (String c rest)) as [|more]; [|apply IH].
    split; [discriminate|].
    intros Hnone. exfalso.
    exact (fieldsFrom_field_kept rest (snoc "" c) (snoc_nonempty "" c) Hnone).
Qed.

Lemma trimLeft_starts_field s : forall skip c kept,
  trimLeft skip s = String c kept -> spaceWidth (String c kept) = 0.
Proof.
  induction s as [|c0 rest IH]; intros skip c kept; cbn [trimLeft]; [discriminate|].
  destruct skip as [|more]; [|apply IH].
  destruct (spaceWidth (String c0 rest)) as [|more] eqn:Hwidth; [|apply IH].
  intros Heq. rewrite <- Heq. exact Hwidth.
Qed.

Lemma TrimSpace_empty_iff s : TrimSpace s = "" <-> Fields s = [].
Proof.
  unfold TrimSpace, Fields. rewrite <- trimLeft_empty_iff.
  destruct (trimLeft 0 s) as [|c kept] eqn:Hleft; [cbn; tauto|].
  apply trimLeft_starts_field in Hleft.
  cbn [trimRight]. rewrite Hleft. split; discriminate.
Qed.

(** X1: [IsProgramRunning] answers true exactly when [pgrep] succeeded
    and printed at least one token, the tokens [TerminateProgram] would
    walk through; a true answer never comes with an error, and the wrapper
    is not touched. *)
Theorem IsProgramRunning_true_iff_tokens
    (env : OS) (w : ipfsCliWrapper) (t : Trace) (name : string) :
  (outcome (oskit.IsProgramRunning name env w t) = Done (true, None) <->
   exists out, run env (oskit.pgrep name) = (out, None) /\ Fields out <> []) /\
  (forall e, outcome (oskit.IsProgramRunning name env w t) <> Done (true, Some e)) /\
  after (oskit.IsProgramRunning name env w t) = w.
Proof.
  unfold oskit.IsProgramRunning. unfold_monad.
  destruct (run env (oskit.pgrep name)) as [out [e|]].
  - destruct (exitCodeIs 1 e); cbn.
    + split; [split; [discriminate | intros (out' & Hrun & _); discriminate Hrun]|].
      split; [intros e'; discriminate | reflexivity].
    + split; [split; [discriminate | intros (out' & Hrun & _); discriminate Hrun]|].
      split; [intros e'; discriminate | reflexivity].
  - cbn. split; [|split; [intros e'; discriminate | reflexivity]].
    destruct (String.eqb_spec (TrimSpace out) "") as [Hempty|Hfull]; cbn.
    + split; [discriminate|]. intros (out' & Hrun & Htokens).
      inversion Hrun; subst out'. apply TrimSpace_empty_iff in Hempty. contradiction.
    + split; [|reflexivity]. intros _. exists out. split; [reflexivity|].
      intros Hnone. apply Hfull, TrimSpace_empty_iff, Hnone.
Qed.

(** ** Starting the child *)

Lemma StartDaemonInBackground_starts_child_steps
    (env : OS) (w : ipfsCliWrapper) (t : Trace) (pid : Z) :
  outcome (oskit.IsProgramRunning "ipfs" env w t) = Done (false, None) ->
  isDaemonRunningContinously w = false ->
  start env = Started pid ->
  exists t',
    StartDaemonInBackground env w t
    = (Done None, setRunning true (onCmd (withProcess pid) w), t').
Proof.
  intros Hlookup Hmode Hstart. revert Hlookup.
  unfold StartDaemonInBackground, oskit.IsProgramRunning, startCommand. unfold_monad.
  destruct (run env (oskit.pgrep "ipfs")) as [out [e|]]; cbn.
  - destruct (exitCodeIs 1 e); cbn; [|discriminate].
    intros _. rewrite Hmode, Hstart. cbn. eauto.
  - destruct (negb (TrimSpace out =? "")); cbn; [discriminate|].
    intros _. rewrite Hmode, Hstart. cbn. eauto.
Qed.

Lemma StartDaemonInBackground_starts_child_trace
    (env : OS) (w : ipfsCliWrapper) (t : Trace) (pid : Z) :
  outcome (oskit.IsProgramRunning "ipfs" env w t) = Done (false, None) ->
  isDaemonRunningContinously w = false ->
  start env = Started pid ->
  exists before rest,
    traceOf (StartDaemonInBackground env w t)
    = (t ++ before) ++
      [{| action := Sleep (daemonInitialWarmupDuration w);
          wrapper := setRunning true (onCmd (withProcess pid) w) |}] ++ rest.
Proof.
  intros Hlookup Hmode Hstart. revert Hlookup.
  unfold StartDaemonInBackground, oskit.IsProgramRunning, startCommand. unfold_monad.
  destruct (run env (oskit.pgrep "ipfs")) as [out [e|]]; cbn.
  - destruct (exitCodeIs 1 e); cbn; [|discriminate].
    intros _. rewrite Hmode, Hstart. cbn.
    eexists [_; _; _], [_]. rewrite <- !app_assoc. reflexivity.
  - destruct (negb (TrimSpace out =? "")); cbn; [discriminate|].
    intros _. rewrite Hmode, Hstart. cbn.
    eexists [_; _; _], [_]. rewrite <- !app_assoc. reflexivity.
Qed.

(** X2: when no process is called [ipfs] and the child starts,
    [StartDaemonInBackground] returns nil with the flag set and the
    process recorded, in continuous mode and outside it; the flag is
    still as it was when [Start] is performed, and the sleep that follows
    lasts the warmup duration of the wrapper.  Outside continuous mode
    the command is started as [NewWrapper] left it; in continuous mode it
    is started detached, with both streams on [/dev/null], which is
    opened before [Start] and closed after the sleep.  Nothing else is
    done but to write log lines. *)
Theorem StartDaemonInBackground_starts_child
    (env : OS) (w : ipfsCliWrapper) (t : Trace) (pid : Z) :
  outcome (oskit.IsProgramRunning "ipfs" env w t) = Done (false, None) ->
  (isDaemonRunningContinously w = true -> openDevNull env = None) ->
  start env = Started pid ->
  let continuous := isDaemonRunningContinously w in
  let held := if continuous then onCmd toDevNull (onCmd detached w) else w in
  let running := setRunning true (onCmd (withProcess pid) held) in
  exists line1 line2 line3,
    StartDaemonInBackground env w t
    = (Done None, running,
       t ++ [{| action := Run (oskit.pgrep "ipfs"); wrapper := w |};
             {| action := line1; wrapper := w |}]
         ++ (if continuous
             then [{| action := line2; wrapper := w |};
                   {| action := OpenDevNull; wrapper := onCmd detached w |}]
             else [])
         ++ [{| action := Start; wrapper := held |};
             {| action := Sleep (daemonInitialWarmupDuration w); wrapper := running |};
             {| action := line3; wrapper := running |}]
         ++ (if continuous
             then [{| action := CloseDevNull; wrapper := running |}]
             else [])) /\
    isLog line1 = true /\ isLog line2 = true /\ isLog line3 = true /\
    isDaemonRunning held = isDaemonRunning w /\
    isDaemonRunning running = true /\
    Process (ipfsDaemonCmd running) = Some pid.
Proof.
  intros Hlookup Hopen Hstart. cbv zeta. revert Hlookup.
  unfold StartDaemonInBackground, oskit.IsProgramRunning, startCommand. unfold_monad.
  destruct (run env (oskit.pgrep "ipfs")) as [out [e|]]; cbn.
  - destruct (exitCodeIs 1 e); cbn; [|discriminate].
    intros _. destruct (isDaemonRunningContinously w) eqn:Hmode.
    + rewrite (Hopen eq_refl). cbn. rewrite Hstart. cbn.
      eexists (Log _ _), (Log _ _), (Log _ _). rewrite <- !app_assoc.
      split; [reflexivity|]. repeat split.
    + rewrite Hstart. cbn.
      eexists (Log _ _), (Log Debug ""), (Log _ _). rewrite <- !app_assoc.
      split; [reflexivity|]. repeat split.
  - destruct (negb (TrimSpace out =? "")); cbn; [discriminate|].
    intros _. destruct (isDaemonRunningContinously w) eqn:Hmode.
    + rewrite (Hopen eq_refl). cbn. rewrite Hstart. cbn.
      eexists (Log _ _), (Log _ _), (Log _ _). rewrite <- !app_assoc.
      split; [reflexivity|]. repeat split.
    + rewrite Hstart. cbn.
      eexists (Log _ _), (Log Debug ""), (Log _ _). rewrite <- !app_assoc.
      split; [reflexivity|]. repeat split.
Qed.

Lemma StartDaemonInBackground_starts_child_witness :
  (exists line1 line3,
     actions (traceOf (StartDaemonInBackground quietOS freshWrapper []))
     = [Run (oskit.pgrep "ipfs"); line1; Start; Sleep 5000000000; line3] /\
     after (StartDaemonInBackground quietOS freshWrapper [])
     = setRunning true (onCmd (withProcess 4242) freshWrapper)) /\
  (exists line1 line2 line3,
     actions (traceOf (StartDaemonInBackground quietOS continuousWrapper []))
     = [Run (oskit.pgrep "ipfs"); line1; line2; OpenDevNull; Start; Sleep 5000000000;
        line3; CloseDevNull] /\
     isDaemonRunning (after (StartDaemonInBackground quietOS continuousWrapper [])) = true /\
     Process (ipfsDaemonCmd (after (StartDaemonInBackground quietOS continuousWrapper [])))
     = Some 4242%Z).
Proof.
  split.
  - destruct (StartDaemonInBackground_starts_child quietOS freshWrapper [] 4242%Z
                eq_refl (fun _ => eq_refl) eq_refl)
      as (line1 & line2 & line3 & Hrun & _).
    exists line1, line3. rewrite Hrun. split; reflexivity.
  - destruct (StartDaemonInBackground_starts_child quietOS continuousWrapper [] 4242%Z
                eq_refl (fun _ => eq_refl) eq_refl)
      as (line1 & line2 & line3 & Hrun & _).
    exists line1, line2, line3. rewrite Hrun. repeat split.
Defined.

(** X3: in continuous mode the child is started in a session of its own
    with both streams on [/dev/null]: that is the command the wrapper
    holds when [Start] is performed, whether [Start] then succeeds or
    fails, and [/dev/null] is closed after [Start] in both cases. *)
Theorem StartDaemonInBackground_detaches_child
    (env : OS) (w : ipfsCliWrapper) (t : Trace) :
  outcome (oskit.IsProgramRunning "ipfs" env w t) = Done (false, None) ->
  isDaemonRunningContinously w = true ->
  openDevNull env = None ->
  exists before started rest,
    traceOf (StartDaemonInBackground env w t) = t ++ before ++ started :: rest /\
    ~ In Start (actions before) /\
    action started = Start /\
    Setsid (ipfsDaemonCmd (wrapper started)) = true /\
    Stdout (ipfsDaemonCmd (wrapper started)) = DevNull /\
    Stderr (ipfsDaemonCmd (wrapper started)) = Some DevNull /\
    isDaemonRunning (wrapper started) = isDaemonRunning w /\
    last (actions rest) = Some CloseDevNull.
Proof.
  intros Hlookup Hmode Hopen. revert Hlookup.
  unfold StartDaemonInBackground, oskit.IsProgramRunning, startCommand. unfold_monad.
  assert (Hclean : forall line1 line2,
            ~ In Start [Run (oskit.pgrep "ipfs"); Log Debug line1; Log Debug line2;
                        OpenDevNull]).
  { intros line1 line2 Hin. repeat (destruct Hin as [Hin|Hin]; [discriminate Hin|]).
    exact Hin. }
  destruct (run env (oskit.pgrep "ipfs")) as [out [e|]]; cbn.
  - destruct (exitCodeIs 1 e); cbn; [|discriminate].
    intros _. rewrite Hmode, Hopen. cbn.
    destruct (start env) as [pid|e']; cbn;
      eexists [_; _; _; _], _, _; rewrite <- !app_assoc;
      (split; [reflexivity|]); (split; [apply Hclean|]); cbn; repeat split.
  - destruct (negb (TrimSpace out =? "")); cbn; [discriminate|].
    intros _. rewrite Hmode, Hopen. cbn.
    destruct (start env) as [pid|e']; cbn;
      eexists [_; _; _; _], _, _; rewrite <- !app_assoc;
      (split; [reflexivity|]); (split; [apply Hclean|]); cbn; repeat split.
Qed.

Lemma StartDaemonInBackground_detaches_child_witness :
  exists before started rest,
    traceOf (StartDaemonInBackground quietOS continuousWrapper [])
    = before ++ started :: rest /\
    action started = Start /\
    Setsid (ipfsDaemonCmd (wrapper started)) = true /\
    last (actions rest) = Some CloseDevNull.
Proof.
  destruct (StartDaemonInBackground_detaches_child quietOS continuousWrapper []
              eq_refl eq_refl eq_refl)
    as (before & started & rest & Htrace & _ & Hstart & Hsid & _ & _ & _ & Hlast).
  exists before, started, rest. repeat split; assumption.
Defined.

(** ** Stopping the child *)

(** X4: a wrapper outside continuous mode that has started its child
    can shut it down: after a successful [StartDaemonInBackground],
    [ShutdownDaemon] does not panic, kills the child first and leaves the
    flag unset, whatever the wrapper was before the start. *)
Theorem ShutdownDaemon_after_start
    (env : OS) (w : ipfsCliWrapper) (t : Trace) (pid : Z) :
  outcome (oskit.IsProgramRunning "ipfs" env w t) = Done (false, None) ->
  isDaemonRunningContinously w = false ->
  start env = Started pid ->
  let started := StartDaemonInBackground env w t in
  let stopped := ShutdownDaemon env (after started) (traceOf started) in
  isDaemonRunning (after started) = true /\
  (exists r, outcome stopped = Done r) /\
  isDaemonRunning (after stopped) = false /\
  exists added, traceOf stopped = traceOf started ++ added /\
                hd_error (actions added) = Some Kill.
Proof.
  intros Hlookup Hmode Hstart started stopped.
  destruct (StartDaemonInBackground_starts_child_steps env w t pid Hlookup Hmode Hstart)
    as (t' & Hrun).
  subst stopped started. rewrite Hrun. unfold outcome, after, traceOf. cbn [fst snd].
  split; [reflexivity|].
  unfold ShutdownDaemon. unfold_monad. cbn. rewrite Hmode. cbn.
  destruct (kill env) as [e|]; cbn.
  - split; [eauto|]. split; [reflexivity|].
    eexists [_; _]. rewrite <- !app_assoc. split; reflexivity.
  - destruct (wait env) as [e|]; cbn.
    + destruct (exitCodeIs (-1) e); cbn;
        (split; [eauto|]); (split; [reflexivity|]);
        eexists [_; _; _]; rewrite <- !app_assoc; split; reflexivity.
    + split; [eauto|]. split; [reflexivity|].
      eexists [_; _]. rewrite <- !app_assoc. split; reflexivity.
Qed.

Lemma ShutdownDaemon_after_start_witness :
  isDaemonRunning (after (StartDaemonInBackground quietOS freshWrapper [])) = true /\
  outcome (ShutdownDaemon quietOS
             (after (StartDaemonInBackground quietOS freshWrapper []))
             (traceOf (StartDaemonInBackground quietOS freshWrapper [])))
  = Done None.
Proof.
  destruct (ShutdownDaemon_after_start quietOS freshWrapper [] 4242%Z
              eq_refl eq_refl eq_refl) as (Hflag & _).
  split; [exact Hflag | reflexivity].
Defined.

(** X5: a wrapper outside continuous mode that found the daemon running
    has no child of its own: [StartDaemonInBackground] returns nil without
    starting one, and [ShutdownDaemon] then calls [Kill] on the nil
    [Process]: it panics, after it has cleared the flag, and nothing is
    sent to the daemon that was found. *)
Theorem ShutdownDaemon_after_adoption_panics
    (env : OS) (w : ipfsCliWrapper) (t : Trace) (err : option error) :
  outcome (oskit.IsProgramRunning "ipfs" env w t) = Done (true, err) ->
  isDaemonRunningContinously w = false ->
  Process (ipfsDaemonCmd w) = None ->
  let started := StartDaemonInBackground env w t in
  let stopped := ShutdownDaemon env (after started) (traceOf started) in
  outcome started = Done None /\
  isDaemonRunning (after started) = true /\
  outcome stopped = Panic "invalid memory address or nil pointer dereference" /\
  isDaemonRunning (after stopped) = false /\
  traceOf stopped = traceOf started.
Proof.
  intros Hlookup Hmode Hnil started stopped. subst stopped started. revert Hlookup.
  unfold StartDaemonInBackground, oskit.IsProgramRunning, ShutdownDaemon. unfold_monad.
  destruct (run env (oskit.pgrep "ipfs")) as [out [e|]]; cbn.
  - destruct (exitCodeIs 1 e); discriminate.
  - destruct (negb (TrimSpace out =? "")); [|discriminate].
    intros _. cbn. rewrite Hmode, Hnil. cbn. repeat split.
Qed.

Lemma ShutdownDaemon_after_adoption_panics_witness :
  outcome (ShutdownDaemon (withRun ("4242", None) quietOS)
             (after (StartDaemonInBackground (withRun ("4242", None) quietOS)
                       freshWrapper []))
             (traceOf (StartDaemonInBackground (withRun ("4242", None) quietOS)
                         freshWrapper [])))
  = Panic "invalid memory address or nil pointer dereference".
Proof.
  exact (proj1 (proj2 (proj2 (ShutdownDaemon_after_adoption_panics
                  (withRun ("4242", None) quietOS) freshWrapper [] None
                  eq_refl eq_refl eq_refl)))).
Defined.

(** X6: when [Kill] fails, [ShutdownDaemon] returns that error wrapped in
    [Error killing process] and does not wait for the child; the flag is
    unset all the same. *)
Theorem ShutdownDaemon_kill_fails
    (env : OS) (w : ipfsCliWrapper) (t : Trace) (pid : Z) (e : error) :
  isDaemonRunningContinously w = false ->
  Process (ipfsDaemonCmd w) = Some pid ->
  kill env = Some e ->
  exists added,
    ShutdownDaemon env w t
    = (Done (Some (Errorf "Error killing process: %v\n" [OpError e])),
       setRunning false w, t ++ added) /\
    ~ In Wait (actions added) /\
    hd_error (actions added) = Some Kill.
Proof.
  intros Hmode Hchild Hkill.
  unfold ShutdownDaemon. unfold_monad. rewrite Hmode, Hchild, Hkill.
  eexists [_; _]. rewrite <- !app_assoc. split; [reflexivity|]. split; [|reflexivity].
  cbn. intros [H|[H|[]]]; discriminate H.
Qed.

Lemma ShutdownDaemon_kill_fails_witness :
  outcome (ShutdownDaemon
             (withProcessAnswers (Some (SysErr "os: process already finished"))
                (fun _ => None) (fun _ => None) quietOS)
             startedWrapper [])
  = Done (Some (Errorf "Error killing process: %v\n"
                  [OpError (SysErr "os: process already finished")])).
Proof.
  destruct (ShutdownDaemon_kill_fails
              (withProcessAnswers (Some (SysErr "os: process already finished"))
                 (fun _ => None) (fun _ => None) quietOS)
              startedWrapper [] 4242%Z (SysErr "os: process already finished")
              eq_refl eq_refl eq_refl) as (added & Hrun & _).
  rewrite Hrun. reflexivity.
Defined.

(** X7: in continuous mode, when the lookup by name fails, also with exit
    status 1, which [IsProgramRunning] reads as no process,
    [ForceShutdownDaemon] returns the error [Failed to find process] and
    sends no signal; the flag is unset all the same. *)
Theorem ForceShutdownDaemon_lookup_fails
    (env : OS) (w : ipfsCliWrapper) (t : Trace) (out : string) (e : error) :
  isDaemonRunningContinously w = true ->
  run env (oskit.pgrep "ipfs") = (out, Some e) ->
  exists added,
    ForceShutdownDaemon env w t
    = (Done (Some (Errorf "Failed to find process: %v\n" [OpError e])),
       setRunning false w, t ++ added) /\
    signalsSent (actions added) = [].
Proof.
  intros Hmode Hrun.
  unfold ForceShutdownDaemon, oskit.TerminateProgram. unfold_monad.
  rewrite Hmode, Hrun. eexists [_]. split; reflexivity.
Qed.

Lemma ForceShutdownDaemon_lookup_fails_witness :
  outcome (oskit.IsProgramRunning "ipfs" quietOS continuousWrapper [])
  = Done (false, None) /\
  outcome (ForceShutdownDaemon quietOS continuousWrapper [])
  = Done (Some (Errorf "Failed to find process: %v\n" [OpError (ExitError 1)])).
Proof.
  split; [reflexivity|].
  destruct (ForceShutdownDaemon_lookup_fails quietOS continuousWrapper [] ""
              (ExitError 1) eq_refl eq_refl) as (added & Hrun & _).
  rewrite Hrun. reflexivity.
Defined.

(** ** Terminating by name *)

Lemma terminateEach_bad_token env w good pids bad rest :
  Forall2 (fun pidStr pid => Atoi pidStr = Some pid) good pids ->
  Forall (fun pid => findProcess env pid = None) pids ->
  Atoi bad = None ->
  forall t, exists added,
    oskit.terminateEach (good ++ bad :: rest) env w t
    = (Done (Some (Errorf "Failed to parse PID: %v\n" [OpError (oskit.numError bad)])),
       w, t ++ added) /\
    signalsSent (actions added) = map (fun pid => (pid, SIGTERM)) pids.
Proof.
  intros Hparse Hfound Hbad.
  induction Hparse as [|pidStr pid good' pids' Hpid _ IH]; intros t;
    cbn [app oskit.terminateEach].
  - rewrite Hbad. exists []. rewrite app_nil_r. split; reflexivity.
  - inversion Hfound as [|? ? Hthis Hothers]; subst.
    rewrite Hpid. unfold_monad. rewrite Hthis.
    destruct (signal env pid SIGTERM);
      match goal with
      | |- context [oskit.terminateEach _ env w ?t'] =>
          destruct (IH Hothers t') as (added & -> & Hsent)
      end;
      eexists (_ :: _ :: _ :: added);
      (split; [rewrite <- !app_assoc; reflexivity | cbn; rewrite <- Hsent; reflexivity]).
Qed.

(** X8: [TerminateProgram] gives up at the first token of the [pgrep]
    output that is not a number: the processes listed before it have been
    sent [SIGTERM], those listed after it are not signalled, and the error
    is [Failed to parse PID]. *)
Theorem TerminateProgram_stops_at_bad_token
    (env : OS) (w : ipfsCliWrapper) (t : Trace) (name out : string)
    (good : list string) (pids : list Z) (bad : string) (rest : list string) :
  run env (oskit.pgrep name) = (out, None) ->
  Fields out = good ++ bad :: rest ->
  Forall2 (fun pidStr pid => Atoi pidStr = Some pid) good pids ->
  Forall (fun pid => findProcess env pid = None) pids ->
  Atoi bad = None ->
  exists added,
    oskit.TerminateProgram name env w t
    = (Done (Some (Errorf "Failed to parse PID: %v\n" [OpError (oskit.numError bad)])),
       w, t ++ added) /\
    signalsSent (actions added) = map (fun pid => (pid, SIGTERM)) pids.
Proof.
  intros Hrun Hsplit Hparse Hfound Hbad.
  unfold oskit.TerminateProgram. unfold_monad. rewrite Hrun, Hsplit.
  destruct (terminateEach_bad_token env w good pids bad rest Hparse Hfound Hbad
              (t ++ [{| action := Run (oskit.pgrep name); wrapper := w |}]))
    as (added & -> & Hsent).
  eexists (_ :: added). rewrite <- app_assoc. split; [reflexivity | exact Hsent].
Qed.

Lemma TerminateProgram_stops_at_bad_token_witness :
  exists added,
    oskit.TerminateProgram "ipfs" (withRun ("101 x02 303", None) quietOS) freshWrapper []
    = (Done (Some (Errorf "Failed to parse PID: %v\n" [OpError (oskit.numError "x02")])),
       freshWrapper, added) /\
    signalsSent (actions added) = [(101%Z, SIGTERM)].
Proof.
  apply (TerminateProgram_stops_at_bad_token
           (withRun ("101 x02 303", None) quietOS) freshWrapper [] "ipfs" "101 x02 303"
           ["101"] [101%Z] "x02" ["303"]); try reflexivity; repeat constructor.
Defined.

(** X9: the daemon that [StartDaemonInBackground] takes for running is
    the one [ForceShutdownDaemon] reaches.  In continuous mode, when the
    lookup reports a running [ipfs] and prints process ids, the start
    returns nil without a child, and the forced shutdown that follows
    returns nil, sends [SIGTERM] to each of them, to one process at least,
    and leaves the flag unset. *)
Theorem ForceShutdownDaemon_reaches_adopted
    (env : OS) (w : ipfsCliWrapper) (t : Trace) (err : option error)
    (out : string) (pids : list Z) :
  outcome (oskit.IsProgramRunning "ipfs" env w t) = Done (true, err) ->
  isDaemonRunningContinously w = true ->
  run env (oskit.pgrep "ipfs") = (out, None) ->
  Forall2 (fun pidStr pid => Atoi pidStr = Some pid) (Fields out) pids ->
  Forall (fun pid => findProcess env pid = None) pids ->
  let started := StartDaemonInBackground env w t in
  let forced := ForceShutdownDaemon env (after started) (traceOf started) in
  outcome started = Done None /\
  outcome forced = Done None /\
  isDaemonRunning (after forced) = false /\
  pids <> [] /\
  exists added,
    traceOf forced = traceOf started ++ added /\
    signalsSent (actions added) = map (fun pid => (pid, SIGTERM)) pids.
Proof.
  intros Hlookup Hmode Hrun Hparse Hfound started forced.
  assert (Htokens : Fields out <> []).
  { revert Hlookup. unfold oskit.IsProgramRunning. unfold_monad. rewrite Hrun. cbn.
    destruct (String.eqb_spec (TrimSpace out) "") as [Hempty|Hfull]; cbn;
      [discriminate|].
    intros _ Hnone. apply Hfull, TrimSpace_empty_iff, Hnone. }
  assert (Hstarted : exists t',
             started = (Done None, setRunning true w, t')).
  { subst started. revert Hlookup.
    unfold StartDaemonInBackground, oskit.IsProgramRunning. unfold_monad.
    rewrite Hrun. cbn.
    destruct (negb (TrimSpace out =? "")); [|discriminate]. intros _. cbn. eauto. }
  destruct Hstarted as (t' & Hstarted).
  subst forced. rewrite Hstarted. unfold outcome, after, traceOf. cbn [fst snd].
  destruct (TerminateProgram_signals env (setRunning false (setRunning true w)) "ipfs"
              t' out pids Hrun Hparse Hfound) as (added & Hterm & Hsent).
  assert (Hforce : ForceShutdownDaemon env (setRunning true w) t'
                   = (Done None, setRunning false (setRunning true w), t' ++ added)).
  { unfold ForceShutdownDaemon. unfold_monad. cbn. rewrite Hmode. exact Hterm. }
  rewrite Hforce. cbn [fst snd].
  split; [reflexivity|]. split; [reflexivity|]. split; [reflexivity|]. split.
  - intros ->. inversion Hparse as [Hnil|]. symmetry in Hnil. contradiction.
  - exists added. split; [reflexivity | exact Hsent].
Qed.

Lemma ForceShutdownDaemon_reaches_adopted_witness :
  outcome (ForceShutdownDaemon (withRun (twoDaemons, None) quietOS)
             (after (StartDaemonInBackground (withRun (twoDaemons, None) quietOS)
                       continuousWrapper []))
             (traceOf (StartDaemonInBackground (withRun (twoDaemons, None) quietOS)
                         continuousWrapper [])))
  = Done None.
Proof.
  refine (proj1 (proj2 (ForceShutdownDaemon_reaches_adopted
            (withRun (twoDaemons, None) quietOS) continuousWrapper [] None
            twoDaemons [101%Z; 202%Z] eq_refl eq_refl eq_refl _ _)));
    repeat constructor.
Defined.

(** * Further properties of the command adapter *)

(** Close a goal of [stateless] once the answers are fixed: the result
    and the actions are read off the run. *)
Ltac same_for_all_wrappers :=
  eexists _, _; intros ?w ?t; eexists;
  split; [rewrite <- ?app_assoc; reflexivity | cbn; reflexivity].

(** X10: the commands of the adapter do not look at the wrapper and do
    not change it: each of them returns without panic, and its result and
    its actions depend on the answers of the operating system alone, so
    they are the same whether the running flag is set or not. *)
Theorem adapter_is_stateless
    (cid filepath typeID : string) (fileContent : option (list byte)) :
  stateless (GetFile cid) /\ stateless (Cat cid) /\
  stateless (Pin cid) /\ stateless (Unpin cid) /\
  stateless GarbageCollection /\
  stateless (AddFile filepath) /\ stateless (AddFileContent fileContent) /\
  stateless (ListPinsByType typeID) /\ stateless ListPins.
Proof.
  assert (Hone : forall argv line (r1 : string -> error -> option error),
            stateless
              ('(output, err) ← perform (CombinedOutput argv)
                                        (fun env => combinedOutput env argv);
               match err with
               | Some e => emit (Log Error line);; mret (r1 output e)
               | None => mret None
               end)).
  { intros argv line r1 env. unfold_monad.
    destruct (combinedOutput env argv) as [output [e|]]; same_for_all_wrappers. }
  assert (Hlist : forall ty, stateless (ListPinsByType ty)).
  { intros ty env. unfold ListPinsByType. unfold_monad.
    destruct (combinedOutput env (pinLsArgv ty)) as [output [e|]];
      same_for_all_wrappers. }
  split; [apply Hone|]. split.
  { intros env. unfold Cat. unfold_monad.
    destruct (combinedOutput env [IPFSBinaryFilePath; "cat"; cid]) as [output [e|]];
      same_for_all_wrappers. }
  split; [apply Hone|]. split; [apply Hone|]. split; [apply Hone|]. split.
  { intros env. unfold AddFile. unfold_monad.
    destruct (combinedOutput env (addArgv filepath)) as [output [e|]];
      same_for_all_wrappers. }
  split; [|split; [apply Hlist | apply Hlist]].
  intros env. unfold AddFileContent, AddFile.
  destruct fileContent as [content|].
  2:{ eexists _, _. intros w t. exists []. rewrite app_nil_r. split; reflexivity. }
  unfold_monad.
  destruct (create env (tempfile (randomString env 5))) as [e|];
    [same_for_all_wrappers|].
  destruct (write env (tempfile (randomString env 5)) content) as [e|];
    [same_for_all_wrappers|].
  destruct (close env (tempfile (randomString env 5))) as [e|];
    [same_for_all_wrappers|].
  destruct (combinedOutput env (addArgv (tempfile (randomString env 5))))
    as [output [e|]];
    destruct (remove env (tempfile (randomString env 5))) as [rmErr|];
    same_for_all_wrappers.
Qed.

Lemma AddFileContent_removes_tempfile_witness :
  exists added line,
    traceOf (AddFileContent (Some hello) addFails freshWrapper []) = added /\
    actions added =
      [RandomString 5; Create "./ipfscliwrapper_tempfile_a1B2c";
       Write "./ipfscliwrapper_tempfile_a1B2c" hello;
       Close "./ipfscliwrapper_tempfile_a1B2c";
       CombinedOutput (addArgv "./ipfscliwrapper_tempfile_a1B2c");
       Log (fst line) (snd line); Log Error "failed adding file to ipfs";
       Remove "./ipfscliwrapper_tempfile_a1B2c"].
Proof.
  destruct (AddFileContent_removes_tempfile addFails freshWrapper [] hello
              eq_refl eq_refl eq_refl) as (added & line & Htrace & Hacts).
  exists added, line. split; [exact Htrace | exact Hacts].
Defined.

(** X11: once the temporary file is written and closed, the later
    [AddFileContent] returns what [AddFile] returns for that file, the
    identifier and the error alike; a failure to remove the file is
    logged and changes nothing in the result. *)
Theorem AddFileContent_returns_what_AddFile_returns
    (env : OS) (w : ipfsCliWrapper) (t t' : Trace) (content : list byte) :
  let filepath := tempfile (randomString env 5) in
  fileError env filepath content = None ->
  outcome (AddFileContent (Some content) env w t) = outcome (AddFile filepath env w t').
Proof.
  intros filepath Hfile. unfold fileError in Hfile. fold filepath in Hfile.
  unfold AddFileContent, AddFile. unfold_monad. fold filepath.
  destruct (create env filepath); [discriminate|].
  destruct (write env filepath content); [discriminate|].
  rewrite Hfile.
  destruct (combinedOutput env (addArgv filepath)) as [output [e|]];
    destruct (remove env filepath); reflexivity.
Qed.

Lemma AddFileContent_returns_what_AddFile_returns_witness :
  outcome (AddFileContent (Some hello)
             (withFiles None None None (Some denied)
                (withCombinedOutput ("added bafy3 ipfscliwrapper_tempfile_a1B2c", None)
                   quietOS))
             freshWrapper [])
  = Done ("bafy3", None).
Proof.
  rewrite (AddFileContent_returns_what_AddFile_returns
             (withFiles None None None (Some denied)
                (withCombinedOutput ("added bafy3 ipfscliwrapper_tempfile_a1B2c", None)
                   quietOS))
             freshWrapper [] [] hello eq_refl).
  reflexivity.
Defined.

(** X12: in the earlier [AddFileContent] (file [commands.go]) a failure
    to remove the file after a successful [AddFile] loses the identifier:
    the call returns the empty string with a nil error. *)
Theorem CommandsGo_AddFileContent_remove_fails
    (env : OS) (w : ipfsCliWrapper) (t : Trace)
    (filename output : string) (content : list byte) (e : error) :
  filename <> "" ->
  fileError env ("./" +:+ filename) content = None ->
  combinedOutput env (CommandsGo.addArgv filename) = (output, None) ->
  remove env ("./" +:+ filename) = Some e ->
  outcome (CommandsGo.AddFileContent filename (Some content) env w t) = Done ("", None) /\
  outcome (CommandsGo.AddFile filename env w t)
  = Done (cid (scanParts (Fields output) addScanStart), None).
Proof.
  intros Hname Hfile Hadd Hremove. unfold fileError in Hfile.
  unfold CommandsGo.AddFileContent, CommandsGo.AddFile. unfold_monad.
  destruct (String.eqb_spec filename "") as [->|_]; [contradiction|].
  destruct (create env ("./" +:+ filename)); [discriminate|].
  destruct (write env ("./" +:+ filename) content); [discriminate|].
  rewrite Hfile, Hadd, Hremove. split; reflexivity.
Qed.

Lemma CommandsGo_AddFileContent_remove_fails_witness :
  outcome (CommandsGo.AddFileContent "note.txt" (Some hello)
             (withFiles None None None (Some denied)
                (withCombinedOutput ("added bafy3 note.txt", None) quietOS))
             freshWrapper [])
  = Done ("", None) /\
  outcome (CommandsGo.AddFile "note.txt"
             (withFiles None None None (Some denied)
                (withCombinedOutput ("added bafy3 note.txt", None) quietOS))
             freshWrapper [])
  = Done ("bafy3", None).
Proof.
  refine (CommandsGo_AddFileContent_remove_fails
            (withFiles None None None (Some denied)
               (withCombinedOutput ("added bafy3 note.txt", None) quietOS))
            freshWrapper [] "note.txt" "added bafy3 note.txt" hello denied
            _ eq_refl eq_refl eq_refl).
  discriminate.
Defined.

(** X13: when the temporary file cannot be created, written or closed,
    the later [AddFileContent] returns the empty identifier with the
    error of that step, runs no command and removes nothing: a file that
    was created and could not be written or closed stays where it is. *)
Theorem AddFileContent_file_error
    (env : OS) (w : ipfsCliWrapper) (t : Trace) (content : list byte) (e : error) :
  fileError env (tempfile (randomString env 5)) content = Some e ->
  exists added,
    AddFileContent (Some content) env w t = (Done ("", Some e), w, t ++ added) /\
    Forall (fun a => ~ runsOrRemoves a) (actions added).
Proof.
  unfold fileError, AddFileContent. unfold_monad.
  destruct (create env (tempfile (randomString env 5))) as [e1|].
  { intros Heq. inversion Heq; subst. eexists [_; _; _]. rewrite <- !app_assoc.
    split; [reflexivity|]. repeat constructor; intros []. }
  destruct (write env (tempfile (randomString env 5)) content) as [e2|].
  { intros Heq. inversion Heq; subst. eexists [_; _; _; _]. rewrite <- !app_assoc.
    split; [reflexivity|]. repeat constructor; intros []. }
  intros Hclose. rewrite Hclose. eexists [_; _; _; _; _]. rewrite <- !app_assoc.
  split; [reflexivity|]. repeat constructor; intros [].
Qed.

Lemma AddFileContent_file_error_witness :
  exists added,
    AddFileContent (Some hello) (withFiles None (Some denied) None None quietOS)
      freshWrapper []
    = (Done ("", Some denied), freshWrapper, added) /\
    Forall (fun a => ~ runsOrRemoves a) (actions added).
Proof.
  exact (AddFileContent_file_error (withFiles None (Some denied) None None quietOS)
           freshWrapper [] hello denied eq_refl).
Defined.

(** * Further properties of the helper packages *)

(** ** randomkit *)

Lemma length_string_of_list_ascii (l : list ascii) :
  String.length (string_of_list_ascii l) = length l.
Proof. induction l as [|c l IH]; cbn; [reflexivity | rewrite IH; reflexivity]. Qed.

Lemma buffer_length n read : length (randomkit.buffer n read) = n.
Proof.
  unfold randomkit.buffer.
  rewrite length_take, length_app, repeat_length. lia.
Qed.

Lemma pick_alphanum b : In (randomkit.pick b) (list_ascii_of_string randomkit.alphanum).
Proof.
  unfold randomkit.pick. apply nth_In.
  change (length (list_ascii_of_string randomkit.alphanum)) with 62%nat.
  change (N.of_nat (String.length randomkit.alphanum)) with 62%N.
  assert (Hlt : (Byte.to_N b mod 62 < 62)%N) by (apply N.mod_lt; discriminate).
  lia.
Qed.

Lemma String_chars n read c :
  In c (list_ascii_of_string (randomkit.String n read)) ->
  In c (list_ascii_of_string randomkit.alphanum).
Proof.
  unfold randomkit.String. rewrite list_ascii_of_string_of_list_ascii.
  intros Hin. apply in_map_iff in Hin as (b & <- & _). apply pick_alphanum.
Qed.

(** X14: [randomkit.String n] is a string of [n] characters, each a
    digit or a letter of [alphanum], whatever the generator wrote and
    however much of the buffer it filled. *)
Theorem String_length_and_alphabet (n : nat) (read : list byte) :
  String.length (randomkit.String n read) = n /\
  Forall (fun c => In c (list_ascii_of_string randomkit.alphanum))
         (list_ascii_of_string (randomkit.String n read)).
Proof.
  unfold randomkit.String. split.
  - rewrite length_string_of_list_ascii, length_map. apply buffer_length.
  - apply List.Forall_forall. intros c Hin.
    rewrite list_ascii_of_string_of_list_ascii in Hin.
    apply in_map_iff in Hin as (b & <- & _). apply pick_alphanum.
Qed.

(** X15: with [randomkit.String] as the source of the suffix, the file
    that [AddFileContent] creates is an entry of the current directory:
    its path is [./ipfscliwrapper_tempfile_] and five characters, none of
    them a slash.  The same path is written, closed, added and removed. *)
Theorem AddFileContent_tempfile_in_cwd
    (env : OS) (w : ipfsCliWrapper) (t : Trace) (content : list byte) (read : list byte) :
  randomString env 5 = randomkit.String 5 read ->
  exists suffix added,
    String.length suffix = 5 /\
    ~ In "/"%char (list_ascii_of_string suffix) /\
    traceOf (AddFileContent (Some content) env w t) = t ++ added /\
    forall path, In (Create path) (actions added) \/ In (Write path content) (actions added)
                 \/ In (Close path) (actions added) \/ In (Remove path) (actions added) ->
                 path = "./ipfscliwrapper_tempfile_" +:+ suffix.
Proof.
  intros Hrandom. exists (randomkit.String 5 read).
  assert (Hlength : String.length (randomkit.String 5 read) = 5).
  { unfold randomkit.String.
    rewrite length_string_of_list_ascii, length_map. apply buffer_length. }
  assert (Hslash : ~ In "/"%char (list_ascii_of_string (randomkit.String 5 read))).
  { intros Hin. pose proof (String_chars _ _ _ Hin) as Halpha.
    vm_compute in Halpha. repeat (destruct Halpha as [Halpha|Halpha];
                                  [discriminate Halpha|]). exact Halpha. }
  unfold AddFileContent, AddFile. unfold_monad. rewrite Hrandom.
  fold (tempfile (randomkit.String 5 read)).
  set (filepath := tempfile (randomkit.String 5 read)).
  assert (Hsame : forall path (acts : list Action),
            Forall (fun a => match a with
                             | Create p | Write p _ | Close p | Remove p => p = filepath
                             | _ => True
                             end) acts ->
            In (Create path) acts \/ In (Write path content) acts
            \/ In (Close path) acts \/ In (Remove path) acts ->
            path = filepath).
  { intros path acts Hall Hin. rewrite List.Forall_forall in Hall.
    destruct Hin as [Hin|[Hin|[Hin|Hin]]]; exact (Hall _ Hin). }
  destruct (create env filepath) as [e|];
    [|destruct (write env filepath content) as [e|];
      [|destruct (close env filepath) as [e|];
        [|destruct (combinedOutput env (addArgv filepath)) as [output [e|]];
          destruct (remove env filepath) as [rmErr|]]]];
    eexists; (split; [exact Hlength|]); (split; [exact Hslash|]);
    rewrite <- ?app_assoc; (split; [reflexivity|]);
    intros path Hin; (eapply Hsame; [|exact Hin]); cbn; repeat constructor.
Qed.

Lemma AddFileContent_tempfile_in_cwd_witness :
  exists suffix added,
    String.length suffix = 5 /\
    ~ In "/"%char (list_ascii_of_string suffix) /\
    traceOf (AddFileContent (Some hello)
               (withRandomString (fun n => randomkit.String n [x2f; x00; xff; x41; x7a])
                  quietOS)
               freshWrapper [])
    = added /\
    forall path, In (Remove path) (actions added) ->
                 path = "./ipfscliwrapper_tempfile_" +:+ suffix.
Proof.
  destruct (AddFileContent_tempfile_in_cwd
              (withRandomString (fun n => randomkit.String n [x2f; x00; xff; x41; x7a])
                 quietOS)
              freshWrapper [] hello [x2f; x00; xff; x41; x7a] eq_refl)
    as (suffix & added & Hlength & Hslash & Htrace & Hpaths).
  exists suffix, added. split; [exact Hlength|]. split; [exact Hslash|].
  split; [exact Htrace|].
  intros path Hin. apply Hpaths. right. right. right. exact Hin.
Defined.

(** * Further properties of the provisioning *)

(** X16: [CreateDirsIfDoesNotExist] makes the directories in order and
    stops at the first one that cannot be made: the directories after it
    are not attempted and the error names the failure; when every
    directory can be made the result is nil. *)
Theorem CreateDirsIfDoesNotExist_stops_at_first_failure
    (env : OS) (w : ipfsCliWrapper) (t : Trace) (made : list string) :
  Forall (fun dirPath => mkdirAll env dirPath = None) made ->
  (exists added,
     oskit.CreateDirsIfDoesNotExist made env w t = (Done None, w, t ++ added) /\
     actions added = map MkdirAll made) /\
  (forall bad rest e,
     mkdirAll env bad = Some e ->
     exists added,
       oskit.CreateDirsIfDoesNotExist (made ++ bad :: rest) env w t
       = (Done (Some (Errorf "failed to make directory: %v" [OpError e])), w, t ++ added) /\
       actions added = map MkdirAll (made ++ [bad])).
Proof.
  intros Hmade. revert t.
  induction Hmade as [|dirPath made' Hthis _ IH]; intros t.
  - split.
    + exists []. rewrite app_nil_r. split; reflexivity.
    + intros bad rest e Hbad. cbn [app oskit.CreateDirsIfDoesNotExist].
      unfold_monad. rewrite Hbad. eexists [_]. split; reflexivity.
  - cbn [app oskit.CreateDirsIfDoesNotExist]. unfold_monad. rewrite Hthis.
    destruct (IH (t ++ [{| action := MkdirAll dirPath; wrapper := w |}]))
      as [(added & Hok & Hacts) Hbad].
    split.
    + eexists (_ :: added). rewrite Hok, <- app_assoc.
      split; [reflexivity | unfold actions in *; cbn; rewrite Hacts; reflexivity].
    + intros bad rest e Hfail.
      destruct (Hbad bad rest e Hfail) as (added' & Hrun & Hacts').
      eexists (_ :: added'). rewrite Hrun, <- app_assoc.
      split; [reflexivity | unfold actions in *; cbn; rewrite Hacts'; reflexivity].
Qed.

Lemma CreateDirsIfDoesNotExist_stops_at_first_failure_witness :
  exists added,
    oskit.CreateDirsIfDoesNotExist ["./bin"; IPFSDataDirPath; IPFSDenylistDirPath]
      (withDisk (fun _ => None)
         (fun dirPath => if dirPath =? IPFSDataDirPath then Some denied else None)
         None (None, None) quietOS)
      freshWrapper []
    = (Done (Some (Errorf "failed to make directory: %v" [OpError denied])),
       freshWrapper, added) /\
    actions added = [MkdirAll "./bin"; MkdirAll IPFSDataDirPath].
Proof.
  refine (proj2 (CreateDirsIfDoesNotExist_stops_at_first_failure
            (withDisk (fun _ => None)
               (fun dirPath => if dirPath =? IPFSDataDirPath then Some denied else None)
               None (None, None) quietOS)
            freshWrapper [] ["./bin"] _)
          IPFSDataDirPath [IPFSDenylistDirPath] denied eq_refl).
  repeat constructor.
Defined.

Lemma downloadAndUnzip_unsupported_witness :
  exists added,
    downloadAndUnzip "plan9" "amd64"
      (withDisk nothingThere (fun _ => None) None (None, None) quietOS) freshWrapper []
    = (Done (Some (Errorf "failed finding download link: %v"
                     [OpError (unsupportedPlatform "plan9" "amd64")])),
       freshWrapper, added) /\
    effects added = [Stat zippedBinaryFilePath].
Proof.
  destruct (downloadAndUnzip_unsupported
              (withDisk nothingThere (fun _ => None) None (None, None) quietOS)
              freshWrapper [] "plan9" "amd64" (SysErr "no such file or directory")
              eq_refl)
    as (added & Hrun & Hacts).
  { intros (m & Hos & _). vm_compute in Hos. discriminate Hos. }
  exists added. split; [exact Hrun|].
  unfold effects. rewrite Hacts. reflexivity.
Defined.

Lemma unzip_never_downloads env w t :
  exists r added,
    unzip env w t = (r, w, t ++ added) /\
    Forall (fun a => ~ isDownload a) (actions added).
Proof.
  unfold unzip, oskit.CreateDirIfDoesNotExist. unfold_monad.
  destruct (mkdirAll env unzippedDirPath);
    [|destruct (mkdirAll env IPFSDataDirPath);
      [|destruct (extractTarGzip env zippedBinaryFilePath binaryDirName) as [[files|] [e|]];
        [| destruct (remove env zippedBinaryFilePath) | |]]];
    eexists _, _; rewrite <- ?app_assoc;
    (split; [reflexivity|]); cbn; repeat constructor; intros [].
Qed.

(** X17: when the archive is already on disk, [downloadAndUnzip] does
    not look the platform up and downloads nothing: it does the same for
    every operating system and architecture, those outside the table
    included. *)
Theorem downloadAndUnzip_archive_present
    (env : OS) (w : ipfsCliWrapper) (t : Trace) (os1 arch1 os2 arch2 : string) :
  stat env zippedBinaryFilePath = None ->
  downloadAndUnzip os1 arch1 env w t = downloadAndUnzip os2 arch2 env w t /\
  exists added,
    traceOf (downloadAndUnzip os1 arch1 env w t) = t ++ added /\
    Forall (fun a => ~ isDownload a) (actions added).
Proof.
  intros Hstat. unfold downloadAndUnzip. unfold_monad. rewrite Hstat.
  split; [reflexivity|].
  match goal with
  | |- context [unzip env w ?t'] =>
      destruct (unzip_never_downloads env w t') as (r & added & -> & Hnone)
  end.
  eexists (_ :: _ :: added). rewrite <- !app_assoc. split; [reflexivity|].
  cbn. repeat constructor; try (intros []). exact Hnone.
Qed.

Lemma downloadAndUnzip_archive_present_witness :
  downloadAndUnzip "plan9" "amd64" quietOS freshWrapper []
  = downloadAndUnzip "linux" "amd64" quietOS freshWrapper [] /\
  outcome (downloadAndUnzip "plan9" "amd64" quietOS freshWrapper []) = Done None.
Proof.
  split; [|reflexivity].
  exact (proj1 (downloadAndUnzip_archive_present quietOS freshWrapper []
                  "plan9" "amd64" "linux" "amd64" eq_refl)).
Defined.

(** X18: on a machine with no archive, a platform of the table, and a
    download and an extraction that succeed, [downloadAndUnzip] returns
    nil after it has, in this order, downloaded the archive of that
    platform to [./bin/ipfs.tar.gz], made the two directories, extracted
    the archive into [bin], removed the archive and set the mode of the
    binary. *)
Theorem downloadAndUnzip_fetches_and_unpacks
    (env : OS) (w : ipfsCliWrapper) (t : Trace) (osName archName url : string)
    (e : error) (files : list string) :
  stat env zippedBinaryFilePath = Some e ->
  (urlsMap !!! osName) !! archName = Some url ->
  download env url zippedBinaryFilePath = None ->
  mkdirAll env unzippedDirPath = None ->
  mkdirAll env IPFSDataDirPath = None ->
  extractTarGzip env zippedBinaryFilePath binaryDirName = (Some files, None) ->
  remove env zippedBinaryFilePath = None ->
  exists added,
    downloadAndUnzip osName archName env w t = (Done None, w, t ++ added) /\
    effects added =
      [Stat zippedBinaryFilePath; Download url zippedBinaryFilePath;
       MkdirAll unzippedDirPath; MkdirAll IPFSDataDirPath;
       ExtractTarGzip zippedBinaryFilePath binaryDirName;
       Remove zippedBinaryFilePath; Chmod IPFSBinaryFilePath].
Proof.
  intros Hstat Hurl Hdownload Hkubo Hdata Hextract Hremove.
  unfold downloadAndUnzip, getDownloadURL, unzip, oskit.CreateDirIfDoesNotExist.
  unfold_monad.
  rewrite Hstat, Hurl. cbn. rewrite Hdownload. cbn.
  rewrite Hkubo. cbn. rewrite Hdata. cbn. rewrite Hextract. cbn. rewrite Hremove. cbn.
  eexists. rewrite <- !app_assoc. split; reflexivity.
Qed.

Lemma downloadAndUnzip_fetches_and_unpacks_witness :
  exists added,
    downloadAndUnzip "linux" "amd64"
      (withDisk nothingThere (fun _ => None) None (Some ["bin/kubo/ipfs"], None) quietOS)
      freshWrapper []
    = (Done None, freshWrapper, added) /\
    effects added =
      [Stat "./bin/ipfs.tar.gz";
       Download "https://dist.ipfs.tech/kubo/v0.29.0/kubo_v0.29.0_linux-amd64.tar.gz"
                "./bin/ipfs.tar.gz";
       MkdirAll "./bin/kubo"; MkdirAll "./bin/kubo/data";
       ExtractTarGzip "./bin/ipfs.tar.gz" "bin";
       Remove "./bin/ipfs.tar.gz"; Chmod "./bin/kubo/ipfs"].
Proof.
  exact (downloadAndUnzip_fetches_and_unpacks
           (withDisk nothingThere (fun _ => None) None (Some ["bin/kubo/ipfs"], None) quietOS)
           freshWrapper [] "linux" "amd64"
           "https://dist.ipfs.tech/kubo/v0.29.0/kubo_v0.29.0_linux-amd64.tar.gz"
           (SysErr "no such file or directory") ["bin/kubo/ipfs"]
           eq_refl eq_refl eq_refl eq_refl eq_refl eq_refl eq_refl).
Defined.

(** X19: a failed download or a failed extraction leaves the archive
    where it is.  When the download fails, [downloadAndUnzip] returns the
    error and makes, extracts and removes nothing; when the extraction
    fails or yields no file, the program exits before the archive is
    removed and before the mode of the binary is set. *)
Theorem downloadAndUnzip_failure_keeps_archive
    (env : OS) (w : ipfsCliWrapper) (t : Trace) (osName archName url : string)
    (e : error) :
  stat env zippedBinaryFilePath = Some e ->
  (urlsMap !!! osName) !! archName = Some url ->
  (forall e', download env url zippedBinaryFilePath = Some e' ->
     exists added,
       downloadAndUnzip osName archName env w t
       = (Done (Some (Errorf "failed downloading the binary: %v" [OpError e'])),
          w, t ++ added) /\
       effects added = [Stat zippedBinaryFilePath; Download url zippedBinaryFilePath]) /\
  (download env url zippedBinaryFilePath = None ->
   mkdirAll env unzippedDirPath = None ->
   mkdirAll env IPFSDataDirPath = None ->
   (forall files, extractTarGzip env zippedBinaryFilePath binaryDirName
                  <> (Some files, None)) ->
   exists msg added,
     downloadAndUnzip osName archName env w t = (Fatal msg, w, t ++ added) /\
     ~ In (Remove zippedBinaryFilePath) (effects added) /\
     ~ In (Chmod IPFSBinaryFilePath) (effects added)).
Proof.
  intros Hstat Hurl. split.
  - intros e' Hdownload.
    unfold downloadAndUnzip, getDownloadURL. unfold_monad.
    rewrite Hstat, Hurl. cbn. rewrite Hdownload. cbn.
    eexists. rewrite <- !app_assoc. split; reflexivity.
  - intros Hdownload Hkubo Hdata Hextract.
    unfold downloadAndUnzip, getDownloadURL, unzip, oskit.CreateDirIfDoesNotExist.
    unfold_monad.
    rewrite Hstat, Hurl. cbn. rewrite Hdownload. cbn.
    rewrite Hkubo. cbn. rewrite Hdata. cbn.
    destruct (extractTarGzip env zippedBinaryFilePath binaryDirName)
      as [[files|] [e'|]] eqn:Hx; cbn;
      try (exfalso; exact (Hextract files eq_refl));
      eexists _, _; rewrite <- !app_assoc;
      (split; [reflexivity|]);
      split; cbn; intros Hin;
      repeat (destruct Hin as [Hin|Hin]; [discriminate Hin|]); exact Hin.
Qed.

Lemma downloadAndUnzip_failure_keeps_archive_witness :
  exists msg added,
    downloadAndUnzip "linux" "amd64"
      (withDisk nothingThere (fun _ => None) None (None, Some (SysErr "unexpected EOF"))
         quietOS)
      freshWrapper []
    = (Fatal msg, freshWrapper, added) /\
    ~ In (Remove zippedBinaryFilePath) (effects added).
Proof.
  destruct (proj2 (downloadAndUnzip_failure_keeps_archive
                     (withDisk nothingThere (fun _ => None) None
                        (None, Some (SysErr "unexpected EOF")) quietOS)
                     freshWrapper [] "linux" "amd64"
                     "https://dist.ipfs.tech/kubo/v0.29.0/kubo_v0.29.0_linux-amd64.tar.gz"
                     (SysErr "no such file or directory") eq_refl eq_refl)
              eq_refl eq_refl eq_refl)
    as (msg & added & Hrun & Hkept & _).
  { intros files. discriminate. }
  exists msg, added. split; [exact Hrun | exact Hkept].
Defined.

(** * Further properties of the constructor *)

Lemma setterOption_sets opt :
  setterOption opt ->
  forall env w t, exists w',
    opt env w t = (Done tt, w', t) /\
    isDaemonRunning w' = isDaemonRunning w /\
    ipfsDaemonCmd w' = ipfsDaemonCmd w.
Proof.
  intros [| |]; intros env w t; eexists; repeat split.
Qed.

Lemma applyOptions_setters options :
  Forall setterOption options ->
  forall env w t, exists w',
    applyOptions options env w t = (Done tt, w', t) /\
    isDaemonRunning w' = isDaemonRunning w /\
    ipfsDaemonCmd w' = ipfsDaemonCmd w.
Proof.
  induction 1 as [|opt rest Hopt _ IH]; intros env w t; cbn [applyOptions].
  - exists w. repeat split.
  - destruct (setterOption_sets opt Hopt env w t) as (w1 & Hrun & Hflag & Hcmd).
    destruct (IH env w1 t) as (w2 & Hrest & Hflag2 & Hcmd2).
    exists w2. unfold_monad. rewrite Hrun, Hrest.
    split; [reflexivity|]. split; congruence.
Qed.

Lemma applyOptions_setters_trace options :
  Forall setterOption options ->
  forall env w t, applyOptions options env w t
                  = (Done tt, after (applyOptions options env w []), t).
Proof.
  intros Hall env w t.
  assert (Hany : forall t1 t2 w',
            applyOptions options env w t1 = (Done tt, w', t1) ->
            applyOptions options env w t2 = (Done tt, w', t2)).
  { clear t. revert w.
    induction Hall as [|opt rest Hopt _ IH]; intros w t1 t2 w'; cbn [applyOptions].
    - unfold_monad. intros Heq. inversion Heq; subst. reflexivity.
    - destruct (setterOption_sets opt Hopt env w t1) as (wa & Hrun1 & _).
      destruct (setterOption_sets opt Hopt env w t2) as (wb & Hrun2 & _).
      assert (wa = wb).
      { destruct Hopt;
          unfold WithContinousOperation, WithOverrideBinaryOsAndArch,
            WithOverrideDaemonInitialWarmupDuration, modify in Hrun1, Hrun2;
          inversion Hrun1; inversion Hrun2; reflexivity. }
      subst wb. unfold_monad. rewrite Hrun1, Hrun2. apply IH. }
  destruct (applyOptions_setters options Hall env w []) as (w0 & Hrun0 & _).
  rewrite Hrun0. unfold after. cbn [fst snd]. exact (Hany [] t w0 Hrun0).
Qed.

Lemma setCmd_same (w : ipfsCliWrapper) (c : Cmd) :
  ipfsDaemonCmd w = c -> setCmd c w = w.
Proof. intros <-. destruct w. reflexivity. Qed.

Lemma configured_cmd GOOS GOARCH options env :
  Forall setterOption options ->
  ipfsDaemonCmd (configured GOOS GOARCH options env) = daemonCmd /\
  isDaemonRunning (configured GOOS GOARCH options env) = false.
Proof.
  intros Hall. unfold configured.
  destruct (applyOptions_setters options Hall env (newStruct GOOS GOARCH) [])
    as (w' & -> & Hflag & Hcmd).
  unfold after. cbn [fst snd]. rewrite Hflag, Hcmd. split; reflexivity.
Qed.

(** X20: when the binary is already installed, [NewWrapper] with options
    that only set fields fetches nothing, runs no command and does not
    sleep: it makes its three directories, looks for the binary, and
    returns the configured wrapper, not running, with a command that has
    no process. *)
Theorem NewWrapper_binary_present
    (env : OS) (w : ipfsCliWrapper) (t : Trace) (GOOS GOARCH : string)
    (options : list Option) :
  Forall (fun dirPath => mkdirAll env dirPath = None) dirs ->
  Forall setterOption options ->
  stat env IPFSBinaryFilePath = None ->
  exists added,
    NewWrapper GOOS GOARCH None options env w t
    = (Done (Some (configured GOOS GOARCH options env), None),
       configured GOOS GOARCH options env, t ++ added) /\
    effects added = map MkdirAll dirs ++ [Stat IPFSBinaryFilePath] /\
    isDaemonRunning (configured GOOS GOARCH options env) = false /\
    Process (ipfsDaemonCmd (configured GOOS GOARCH options env)) = None.
Proof.
  intros Hdirs Hsetters Hstat.
  destruct (configured_cmd GOOS GOARCH options env Hsetters) as [Hcmd Hflag].
  destruct (CreateDirs_all_made env w dirs Hdirs t) as (made & Hmade & Heffects).
  unfold NewWrapper, provision. fold dirs. unfold_monad. rewrite Hmade.
  rewrite (applyOptions_setters_trace options Hsetters).
  fold (configured GOOS GOARCH options env). rewrite Hstat.
  rewrite (setCmd_same _ _ Hcmd).
  eexists (made ++ [_; _]). rewrite <- !app_assoc.
  split; [reflexivity|]. split; [|split; [exact Hflag | rewrite Hcmd; reflexivity]].
  rewrite effects_app, Heffects. reflexivity.
Qed.

Lemma NewWrapper_binary_present_witness :
  exists added,
    NewWrapper "linux" "amd64" None [WithContinousOperation] quietOS freshWrapper []
    = (Done (Some continuousWrapper, None), continuousWrapper, added) /\
    effects added =
      [MkdirAll "./bin"; MkdirAll "./bin/kubo/data"; MkdirAll "./bin/kubo/data/denylists/";
       Stat "./bin/kubo/ipfs"].
Proof.
  destruct (NewWrapper_binary_present quietOS freshWrapper [] "linux" "amd64"
              [WithContinousOperation]) as (added & Hrun & Heffects & _);
    try reflexivity; repeat constructor.
  exists added. split; [exact Hrun | exact Heffects].
Defined.

(** X21: when neither the binary nor the archive is on disk and the
    platform the options leave in the wrapper is not in the table,
    [NewWrapper] does not return: the program exits with [failed to get
    ipfs binary from url], and nothing has been downloaded, no command
    has been run and no sleep has been taken. *)
Theorem NewWrapper_unsupported_platform_exits
    (env : OS) (w : ipfsCliWrapper) (t : Trace) (GOOS GOARCH : string)
    (stdoutPipe : option error) (options : list Option) (e1 e2 : error) :
  Forall (fun dirPath => mkdirAll env dirPath = None) dirs ->
  Forall setterOption options ->
  stat env IPFSBinaryFilePath = Some e1 ->
  stat env zippedBinaryFilePath = Some e2 ->
  ~ inTable (os (configured GOOS GOARCH options env))
            (arch (configured GOOS GOARCH options env)) ->
  exists added,
    NewWrapper GOOS GOARCH stdoutPipe options env w t
    = (Fatal "failed to get ipfs binary from url: %v",
       configured GOOS GOARCH options env, t ++ added) /\
    effects added
    = map MkdirAll dirs ++ [Stat IPFSBinaryFilePath; Stat zippedBinaryFilePath].
Proof.
  intros Hdirs Hsetters Hbinary Harchive Hnot.
  destruct (CreateDirs_all_made env w dirs Hdirs t) as (made & Hmade & Heffects).
  unfold NewWrapper, provision, downloadAndUnzip, getDownloadURL.
  fold dirs. unfold_monad. rewrite Hmade.
  rewrite (applyOptions_setters_trace options Hsetters).
  fold (configured GOOS GOARCH options env). rewrite Hbinary. cbn beta iota.
  rewrite Harchive. cbn beta iota. rewrite (lookup_outside_table _ _ Hnot).
  eexists (made ++ [_; _; _; _]). rewrite <- !app_assoc.
  split; [reflexivity|]. rewrite effects_app, Heffects. reflexivity.
Qed.

Lemma NewWrapper_unsupported_platform_exits_witness :
  exists added,
    outcome (NewWrapper "linux" "amd64" None
               [WithOverrideBinaryOsAndArch "darwin" "386"]
               (withDisk nothingThere (fun _ => None) None (None, None) quietOS)
               freshWrapper [])
    = Fatal "failed to get ipfs binary from url: %v" /\
    effects (traceOf (NewWrapper "linux" "amd64" None
                        [WithOverrideBinaryOsAndArch "darwin" "386"]
                        (withDisk nothingThere (fun _ => None) None (None, None) quietOS)
                        freshWrapper []))
    = added /\
    Forall (fun a => ~ isDownload a) added.
Proof.
  destruct (NewWrapper_unsupported_platform_exits
              (withDisk nothingThere (fun _ => None) None (None, None) quietOS)
              freshWrapper [] "linux" "amd64" None
              [WithOverrideBinaryOsAndArch "darwin" "386"]
              (SysErr "no such file or directory") (SysErr "no such file or directory"))
    as (added & Hrun & Heffects);
    try reflexivity; try (repeat constructor; fail).
  { intros (m & Hos & [url Harch]). vm_compute in Hos. inversion Hos; subst m.
    vm_compute in Harch. discriminate Harch. }
  eexists. rewrite Hrun. split; [reflexivity|]. split; [exact Heffects|].
  cbn. repeat constructor; intros [].
Defined.

(** X22: the first run.  With no binary and no archive on disk, a
    platform of the table and a download and an extraction that succeed,
    [NewWrapper] fetches and unpacks the binary, runs [ipfs init] and
    sleeps for the warmup duration, and it returns the configured wrapper
    whether [ipfs init] succeeds or fails. *)
Theorem NewWrapper_first_run
    (env : OS) (w : ipfsCliWrapper) (t : Trace) (GOOS GOARCH url : string)
    (options : list Option) (e1 e2 : error) (files : list string) :
  let cfg := configured GOOS GOARCH options env in
  Forall (fun dirPath => mkdirAll env dirPath = None) dirs ->
  Forall setterOption options ->
  stat env IPFSBinaryFilePath = Some e1 ->
  stat env zippedBinaryFilePath = Some e2 ->
  (urlsMap !!! os cfg) !! arch cfg = Some url ->
  download env url zippedBinaryFilePath = None ->
  mkdirAll env unzippedDirPath = None ->
  extractTarGzip env zippedBinaryFilePath binaryDirName = (Some files, None) ->
  remove env zippedBinaryFilePath = None ->
  exists added,
    NewWrapper GOOS GOARCH None options env w t = (Done (Some cfg, None), cfg, t ++ added) /\
    effects added
    = map MkdirAll dirs ++
      [Stat IPFSBinaryFilePath; Stat zippedBinaryFilePath;
       Download url zippedBinaryFilePath;
       MkdirAll unzippedDirPath; MkdirAll IPFSDataDirPath;
       ExtractTarGzip zippedBinaryFilePath binaryDirName;
       Remove zippedBinaryFilePath; Chmod IPFSBinaryFilePath;
       CombinedOutput initArgv; Sleep (daemonInitialWarmupDuration cfg)].
Proof.
  intros cfg Hdirs Hsetters Hbinary Harchive Hurl Hdownload Hkubo Hextract Hremove.
  subst cfg.
  assert (Hdata : mkdirAll env IPFSDataDirPath = None).
  { inversion Hdirs as [|? ? _ Hrest]. inversion Hrest. assumption. }
  destruct (configured_cmd GOOS GOARCH options env Hsetters) as [Hcmd _].
  destruct (CreateDirs_all_made env w dirs Hdirs t) as (made & Hmade & Heffects).
  unfold NewWrapper, provision, downloadAndUnzip, getDownloadURL, unzip,
    oskit.CreateDirIfDoesNotExist.
  fold dirs. unfold_monad. rewrite Hmade.
  rewrite (applyOptions_setters_trace options Hsetters).
  fold (configured GOOS GOARCH options env).
  rewrite Hbinary. cbn beta iota. rewrite Harchive. cbn beta iota.
  rewrite Hurl. cbn beta iota. rewrite Hdownload. cbn beta iota.
  rewrite Hkubo. cbn beta iota. rewrite Hdata. cbn beta iota.
  rewrite Hextract. cbn beta iota. rewrite Hremove. cbn beta iota.
  destruct (combinedOutput env initArgv) as [output [e|]]; cbn beta iota;
    rewrite (setCmd_same _ _ Hcmd);
    eexists (made ++ _); rewrite <- !app_assoc;
    (split; [reflexivity|]); rewrite effects_app, Heffects; reflexivity.
Qed.

Lemma NewWrapper_first_run_witness :
  exists added,
    NewWrapper "linux" "amd64" None []
      (withCombinedOutput ("Error: ipfs configuration file already exists!",
                           Some (ExitError 1))
         (withDisk nothingThere (fun _ => None) None (Some ["bin/kubo/ipfs"], None)
            quietOS))
      freshWrapper []
    = (Done (Some freshWrapper, None), freshWrapper, added) /\
    last (effects added) = Some (Sleep 5000000000).
Proof.
  destruct (NewWrapper_first_run
              (withCombinedOutput ("Error: ipfs configuration file already exists!",
                                   Some (ExitError 1))
                 (withDisk nothingThere (fun _ => None) None
                    (Some ["bin/kubo/ipfs"], None) quietOS))
              freshWrapper [] "linux" "amd64"
              "https://dist.ipfs.tech/kubo/v0.29.0/kubo_v0.29.0_linux-amd64.tar.gz"
              [] (SysErr "no such file or directory") (SysErr "no such file or directory")
              ["bin/kubo/ipfs"])
    as (added & Hrun & Heffects); try reflexivity; try (repeat constructor; fail).
  exists added. split; [exact Hrun|]. rewrite Heffects. reflexivity.
Defined.

(** X23: the options run before the binary is looked for.  With
    [WithRunGarbageCollectionOnStarup] among the options that run first,
    a garbage collection that fails, as it does while the binary is not
    installed, ends the program in [NewWrapper] before the binary is
    looked for or fetched. *)
Theorem NewWrapper_garbage_collection_before_provisioning
    (env : OS) (w : ipfsCliWrapper) (t : Trace) (GOOS GOARCH output : string)
    (stdoutPipe : option error) (rest : list Option) (e : error) :
  Forall (fun dirPath => mkdirAll env dirPath = None) dirs ->
  combinedOutput env gcArgv = (output, Some e) ->
  exists msg added,
    NewWrapper GOOS GOARCH stdoutPipe (WithRunGarbageCollectionOnStarup :: rest) env w t
    = (Fatal msg, newStruct GOOS GOARCH, t ++ added) /\
    effects added = map MkdirAll dirs ++ [CombinedOutput gcArgv].
Proof.
  intros Hdirs Hgc.
  destruct (CreateDirs_all_made env w dirs Hdirs t) as (made & Hmade & Heffects).
  unfold NewWrapper. fold dirs. cbn [applyOptions].
  unfold WithRunGarbageCollectionOnStarup. unfold_monad. rewrite Hmade, Hgc.
  eexists _, (made ++ [_]). rewrite <- !app_assoc.
  split; [reflexivity|]. rewrite effects_app, Heffects. reflexivity.
Qed.

Lemma NewWrapper_garbage_collection_before_provisioning_witness :
  exists msg added,
    NewWrapper "linux" "amd64" None [WithRunGarbageCollectionOnStarup]
      (withCombinedOutput ("", Some (SysErr "fork/exec ./bin/kubo/ipfs: no such file or directory"))
         (withDisk nothingThere (fun _ => None) None (None, None) quietOS))
      freshWrapper []
    = (Fatal msg, freshWrapper, added) /\
    ~ In (Stat IPFSBinaryFilePath) (effects added).
Proof.
  destruct (NewWrapper_garbage_collection_before_provisioning
              (withCombinedOutput
                 ("", Some (SysErr "fork/exec ./bin/kubo/ipfs: no such file or directory"))
                 (withDisk nothingThere (fun _ => None) None (None, None) quietOS))
              freshWrapper [] "linux" "amd64" "" None []
              (SysErr "fork/exec ./bin/kubo/ipfs: no such file or directory"))
    as (msg & added & Hrun & Heffects); try reflexivity; try (repeat constructor; fail).
  exists msg, added. split; [exact Hrun|]. rewrite Heffects.
  cbn. intros Hin. repeat (destruct Hin as [Hin|Hin]; [discriminate Hin|]). exact Hin.
Defined.

(** X24: [WithOverrideDaemonInitialWarmupDuration] sets the warmup to the
    given number of seconds when that number is at most 9223372036 in
    absolute value, beyond which the product with [time.Second] leaves
    the range of [int64]; the sleep of a [StartDaemonInBackground] that
    starts the child is then that long. *)
Theorem WithOverrideDaemonInitialWarmupDuration_seconds
    (env : OS) (w : ipfsCliWrapper) (t : Trace) (seconds pid : Z) :
  (-9223372036 <= seconds <= 9223372036)%Z ->
  let w' := after (WithOverrideDaemonInitialWarmupDuration seconds env w t) in
  daemonInitialWarmupDuration w' = (seconds * 1000000000)%Z /\
  (outcome (oskit.IsProgramRunning "ipfs" env w' t) = Done (false, None) ->
   isDaemonRunningContinously w = false ->
   start env = Started pid ->
   In (Sleep (seconds * 1000000000)%Z)
      (actions (traceOf (StartDaemonInBackground env w' t)))).
Proof.
  intros Hrange w'.
  assert (Hset : daemonInitialWarmupDuration w' = (seconds * 1000000000)%Z).
  { subst w'. unfold WithOverrideDaemonInitialWarmupDuration, modify, after.
    cbn [fst snd setWarmup daemonInitialWarmupDuration].
    unfold wrapInt64, Second. rewrite Z.mod_small; lia. }
  split; [exact Hset|].
  intros Hlookup Hmode Hstart.
  destruct (StartDaemonInBackground_starts_child_trace env w' t pid Hlookup Hmode Hstart)
    as (before & rest & ->).
  rewrite Hset. unfold actions. rewrite !map_app. cbn.
  apply in_or_app. right. left. reflexivity.
Qed.

Lemma WithOverrideDaemonInitialWarmupDuration_seconds_witness :
  In (Sleep 30000000000)
     (actions (traceOf (StartDaemonInBackground quietOS
                          (after (WithOverrideDaemonInitialWarmupDuration 30 quietOS
                                    freshWrapper []))
                          []))).
Proof.
  refine (proj2 (WithOverrideDaemonInitialWarmupDuration_seconds
                   quietOS freshWrapper [] 30%Z 4242%Z _) eq_refl eq_refl eq_refl).
  split; discriminate.
Defined.

Lemma packageOption_keeps opt :
  packageOption opt ->
  forall env w t,
    isDaemonRunning (after (opt env w t)) = isDaemonRunning w /\
    ipfsDaemonCmd (after (opt env w t)) = ipfsDaemonCmd w.
Proof.
  intros [opt' Hsetter| | |]; intros env w t.
  - destruct (setterOption_sets opt' Hsetter env w t) as (w' & -> & Hflag & Hcmd).
    split; assumption.
  - unfold WithForcedShutdownDaemonOnStartup. unfold_monad.
    destruct (TerminateProgram_gentle env w "ipfs" t) as (r & added & -> & _).
    destruct r; split; reflexivity.
  - unfold WithDenylist. unfold_monad.
    destruct (stat env _); [|split; reflexivity].
    destruct (download env _ _); split; reflexivity.
  - unfold WithRunGarbageCollectionOnStarup. unfold_monad.
    destruct (combinedOutput env gcArgv) as [output [e|]]; split; reflexivity.
Qed.

Lemma applyOptions_keeps options :
  Forall packageOption options ->
  forall env w t,
    isDaemonRunning (after (applyOptions options env w t)) = isDaemonRunning w /\
    ipfsDaemonCmd (after (applyOptions options env w t)) = ipfsDaemonCmd w.
Proof.
  induction 1 as [|opt rest Hopt _ IH]; intros env w t; cbn [applyOptions].
  - split; reflexivity.
  - destruct (packageOption_keeps opt Hopt env w t) as [Hflag Hcmd].
    unfold_monad.
    destruct (opt env w t) as [[[u|msg|msg] w1] t1]; cbn [fst snd] in *.
    + destruct (IH env w1 t1) as [Hflag' Hcmd']. unfold after in *.
      split; congruence.
    + split; assumption.
    + split; assumption.
Qed.

Lemma downloadAndUnzip_keeps_wrapper osName archName env w t :
  after (downloadAndUnzip osName archName env w t) = w.
Proof.
  unfold downloadAndUnzip, getDownloadURL. unfold_monad.
  destruct (stat env zippedBinaryFilePath).
  - destruct ((urlsMap !!! osName) !! archName); cbn; [|reflexivity].
    destruct (download env _ _); cbn; [reflexivity|].
    match goal with
    | |- context [unzip env w ?t'] =>
        destruct (unzip_never_downloads env w t') as (r & added & -> & _)
    end.
    reflexivity.
  - match goal with
    | |- context [unzip env w ?t'] =>
        destruct (unzip_never_downloads env w t') as (r & added & -> & _)
    end.
    reflexivity.
Qed.

Lemma provision_keeps_wrapper env w t : after (provision env w t) = w.
Proof.
  unfold provision. unfold_monad.
  destruct (stat env IPFSBinaryFilePath) as [missing|]; [|reflexivity].
  pose proof (downloadAndUnzip_keeps_wrapper (os w) (arch w) env w
                (t ++ [{| action := Stat IPFSBinaryFilePath; wrapper := w |}])) as Hkept.
  unfold after in Hkept.
  destruct (downloadAndUnzip (os w) (arch w) env w _) as [[[fetched|msg|msg] w1] t1];
    cbn [fst snd] in *; subst w1; try reflexivity.
  destruct fetched as [failed|]; [reflexivity|].
  destruct (combinedOutput env initArgv) as [output [initErr|]]; reflexivity.
Qed.

(** X25: whatever options of the package are given and whatever the
    operating system answers, a wrapper that [NewWrapper] returns is not
    running and holds a command that has not been started and is not
    detached; a wrapper is returned only with a nil error, and only when
    the stdout pipe could be made. *)
Theorem NewWrapper_returns_idle_wrapper
    (env : OS) (w : ipfsCliWrapper) (t : Trace) (GOOS GOARCH : string)
    (stdoutPipe : option error) (options : list Option)
    (built : ipfsCliWrapper) (err : option error) :
  Forall packageOption options ->
  outcome (NewWrapper GOOS GOARCH stdoutPipe options env w t) = Done (Some built, err) ->
  err = None /\ stdoutPipe = None /\
  after (NewWrapper GOOS GOARCH stdoutPipe options env w t) = built /\
  isDaemonRunning built = false /\
  ipfsDaemonCmd built = daemonCmd.
Proof.
  intros Hoptions. unfold NewWrapper. unfold_monad.
  destruct (oskit.CreateDirsIfDoesNotExist _ env w t) as [[[made|msg|msg] w0] t0];
    try discriminate.
  destruct made as [failed|]; [discriminate|].
  destruct (applyOptions_keeps options Hoptions env (newStruct GOOS GOARCH) t0)
    as [Hflag _].
  unfold after in Hflag.
  destruct (applyOptions options env (newStruct GOOS GOARCH) t0)
    as [[[u|msg|msg] w1] t1]; cbn [fst snd] in *; try discriminate.
  pose proof (provision_keeps_wrapper env w1 t1) as Hkept. unfold after in Hkept.
  destruct (provision env w1 t1) as [[[u'|msg|msg] w2] t2];
    cbn [fst snd] in *; try discriminate.
  subst w2.
  destruct stdoutPipe as [pipeErr|]; [discriminate|].
  intros Hdone. inversion Hdone; subst.
  repeat split. exact Hflag.
Qed.

Lemma NewWrapper_returns_idle_wrapper_witness :
  isDaemonRunning continuousWrapper = false /\
  ipfsDaemonCmd continuousWrapper = daemonCmd.
Proof.
  refine (proj2 (proj2 (proj2 (NewWrapper_returns_idle_wrapper
            (withRun (twoDaemons, None) quietOS) freshWrapper [] "linux" "amd64" None
            [WithForcedShutdownDaemonOnStartup; WithContinousOperation]
            continuousWrapper None _ eq_refl)))).
  constructor; [apply isForcedShutdown|].
  constructor; [apply isSetter, setsContinous | constructor].
Defined.

(** * Further properties of [MoveFile] and [DownloadFile] *)

(** Decide a membership in a list of calls that is written out. *)
Ltac in_calls :=
  cbn [In app] in *;
  repeat match goal with
         | |- ~ _ => intros ?Hin
         | H : _ \/ _ |- _ => destruct H as [H|H]
         | H : False |- _ => destruct H
         | H : MoveFileModel.RemoveCall _ = MoveFileModel.RemoveCall _ |- _ =>
             inversion H; subst; clear H
         | H : _ = _ |- _ => discriminate H
         end;
  try contradiction; try congruence;
  try (repeat (first [left; reflexivity | right])).

(** X26: [MoveFile] removes the source only after the copy, the close of
    the destination and the close of the source have all succeeded, and
    only then can it return nil; when the copy fails it removes the
    destination instead and leaves the source. *)
Theorem MoveFile_source_removed_last
    (fs : MoveFileModel.Files) (sourcePath destPath : string) :
  sourcePath <> destPath ->
  let err := fst (MoveFileModel.MoveFile fs sourcePath destPath) in
  let calls := snd (MoveFileModel.MoveFile fs sourcePath destPath) in
  (In (MoveFileModel.RemoveCall sourcePath) calls ->
     MoveFileModel.copyAnswer fs destPath sourcePath = None /\
     MoveFileModel.closeAnswer fs destPath = None /\
     MoveFileModel.closeAnswer fs sourcePath = None /\
     ~ In (MoveFileModel.RemoveCall destPath) calls /\
     exists before rest,
       calls = before ++ MoveFileModel.RemoveCall sourcePath :: rest /\
       In (MoveFileModel.CopyCall destPath sourcePath) before) /\
  (err = None -> In (MoveFileModel.RemoveCall sourcePath) calls) /\
  (forall e,
     In (MoveFileModel.CopyCall destPath sourcePath) calls ->
     MoveFileModel.copyAnswer fs destPath sourcePath = Some e ->
     err = Some e /\
     In (MoveFileModel.RemoveCall destPath) calls /\
     ~ In (MoveFileModel.RemoveCall sourcePath) calls).
Proof.
  intros Hdistinct err calls. subst err calls. unfold MoveFileModel.MoveFile.
  destruct (MoveFileModel.openAnswer fs sourcePath) as [e1|]; cbn [fst snd].
  { split; [intros Hin; in_calls|]. split; [discriminate|]. intros e Hin; in_calls. }
  destruct (MoveFileModel.statAnswer fs sourcePath) as [mode|e2]; cbn [fst snd].
  2:{ split; [intros Hin; in_calls|]. split; [discriminate|]. intros e Hin; in_calls. }
  destruct (MoveFileModel.openFileAnswer fs destPath _) as [e3|]; cbn [fst snd].
  { split; [intros Hin; in_calls|]. split; [discriminate|]. intros e Hin; in_calls. }
  destruct (MoveFileModel.copyAnswer fs destPath sourcePath) as [e4|]; cbn [fst snd].
  { split; [intros Hin; in_calls|]. split; [discriminate|].
    intros e _ Heq. inversion Heq; subst. split; [reflexivity|]. split; in_calls. }
  destruct (MoveFileModel.closeAnswer fs destPath) as [e5|]; cbn [fst snd].
  { split; [intros Hin; in_calls|]. split; [discriminate|]. intros e _ Heq; discriminate. }
  destruct (MoveFileModel.closeAnswer fs sourcePath) as [e6|]; cbn [fst snd].
  { split; [intros Hin; in_calls|]. split; [discriminate|]. intros e _ Heq; discriminate. }
  split; [|split; [intros _; in_calls | intros e _ Heq; discriminate]].
  intros _. repeat (split; [reflexivity|]). split; [in_calls|].
  eexists [_; _; _; _; _; _], [_; _]. split; [reflexivity|]. in_calls.
Qed.

Lemma MoveFile_source_removed_last_witness :
  fst (MoveFileModel.MoveFile diskFull "a.txt" "b.txt")
  = Some (SysErr "no space left on device") /\
  In (MoveFileModel.RemoveCall "b.txt") (snd (MoveFileModel.MoveFile diskFull "a.txt" "b.txt")) /\
  ~ In (MoveFileModel.RemoveCall "a.txt") (snd (MoveFileModel.MoveFile diskFull "a.txt" "b.txt")).
Proof.
  refine (proj2 (proj2 (MoveFile_source_removed_last diskFull "a.txt" "b.txt" _))
            (SysErr "no space left on device") _ eq_refl).
  - discriminate.
  - cbn. tauto.
Defined.

(** X27: [MoveFile] closes every file it has opened, on every path: the
    source once it is open, the destination once it is open.  Once the
    source is open and its mode is known, the destination is opened, and
    only ever opened, with the permission bits of the source: the mode of
    the source masked by [os.ModePerm], a number from 0 to octal 777. *)
Theorem MoveFile_closes_what_it_opens
    (fs : MoveFileModel.Files) (sourcePath destPath : string) :
  let calls := snd (MoveFileModel.MoveFile fs sourcePath destPath) in
  (MoveFileModel.openAnswer fs sourcePath = None ->
     In (MoveFileModel.CloseCall sourcePath) calls) /\
  (forall mode,
     MoveFileModel.openAnswer fs sourcePath = None ->
     MoveFileModel.statAnswer fs sourcePath = MoveFileModel.StatOk mode ->
     In (MoveFileModel.OpenFileCall destPath (Z.land mode MoveFileModel.ModePerm)) calls) /\
  (forall path perm,
     In (MoveFileModel.OpenFileCall path perm) calls ->
     path = destPath /\
     (exists mode,
        MoveFileModel.statAnswer fs sourcePath = MoveFileModel.StatOk mode /\
        perm = Z.land mode MoveFileModel.ModePerm) /\
     (0 <= perm <= 511)%Z /\
     (MoveFileModel.openFileAnswer fs destPath perm = None ->
        In (MoveFileModel.CloseCall destPath) calls)).
Proof.
  intros calls. subst calls. unfold MoveFileModel.MoveFile.
  assert (Hbits : forall mode, (0 <= Z.land mode MoveFileModel.ModePerm <= 511)%Z).
  { intros mode. change MoveFileModel.ModePerm with (Z.ones 9).
    rewrite Z.land_ones by discriminate.
    pose proof (Z.mod_pos_bound mode (2 ^ 9) eq_refl) as Hbound.
    change (2 ^ 9)%Z with 512%Z in *. lia. }
  assert (Hperm : forall p q mode (others : list MoveFileModel.FileCall),
            In (MoveFileModel.OpenFileCall p q)
               (MoveFileModel.OpenCall sourcePath :: MoveFileModel.StatCall sourcePath
                :: MoveFileModel.OpenFileCall destPath
                     (Z.land mode MoveFileModel.ModePerm) :: others) ->
            (forall p' r, ~ In (MoveFileModel.OpenFileCall p' r) others) ->
            p = destPath /\ q = Z.land mode MoveFileModel.ModePerm).
  { intros p q mode others [Hin|[Hin|[Hin|Hin]]] Hothers;
      try discriminate Hin;
      [inversion Hin; split; reflexivity | destruct (Hothers p q Hin)]. }
  destruct (MoveFileModel.openAnswer fs sourcePath) as [e1|]; cbn [fst snd].
  { split; [discriminate|]. split; [discriminate|]. intros path perm Hin. in_calls. }
  destruct (MoveFileModel.statAnswer fs sourcePath) as [mode|e2]; cbn [fst snd].
  2:{ split; [intros _; in_calls|]. split; [discriminate|].
      intros path perm Hin. in_calls. }
  destruct (MoveFileModel.openFileAnswer fs destPath _) as [e3|] eqn:Hopened;
    cbn [fst snd].
  { split; [intros _; in_calls|].
    split; [intros mode' _ Hmode; inversion Hmode; subst mode'; in_calls|].
    intros path perm Hin.
    apply Hperm in Hin; [|intros p' r Hr; in_calls]. destruct Hin as [-> ->].
    split; [reflexivity|]. split; [eauto|]. split; [apply Hbits|].
    rewrite Hopened. discriminate. }
  destruct (MoveFileModel.copyAnswer fs destPath sourcePath) as [e4|];
    [|destruct (MoveFileModel.closeAnswer fs destPath) as [e5|];
      [|destruct (MoveFileModel.closeAnswer fs sourcePath) as [e6|]]];
    cbn [fst snd];
    (split; [intros _; in_calls|]);
    (split; [intros mode' _ Hmode; inversion Hmode; subst mode'; in_calls|]);
    intros path perm Hin;
    (apply Hperm in Hin; [|intros p' r Hr; in_calls]); destruct Hin as [-> ->];
    (split; [reflexivity|]); (split; [eauto|]); (split; [apply Hbits|]);
    intros _; in_calls.
Qed.

Lemma MoveFile_closes_what_it_opens_witness :
  In (MoveFileModel.CloseCall "a.txt") (snd (MoveFileModel.MoveFile goodFiles "a.txt" "b.txt")) /\
  fst (MoveFileModel.MoveFile goodFiles "a.txt" "b.txt") = None /\
  In (MoveFileModel.OpenFileCall "b.txt" 420)
     (snd (MoveFileModel.MoveFile goodFiles "a.txt" "b.txt")).
Proof.
  split; [|split; [reflexivity|]].
  - exact (proj1 (MoveFile_closes_what_it_opens goodFiles "a.txt" "b.txt") eq_refl).
  - exact (proj1 (proj2 (MoveFile_closes_what_it_opens goodFiles "a.txt" "b.txt"))
             33188%Z eq_refl eq_refl).
Defined.

(** X28: [DownloadFile] returns nil exactly when the file was created,
    the server answered with status 200 and the body was copied.  Any
    other status gives the error [bad status] with the status line, and
    the body is closed without being copied.  The creation of the file is
    the first call on every path, and once the file is created its close
    is the last one. *)
Theorem DownloadFile_status
    (net : urlkit.Net) (fromUrl saveToFilepath : string) :
  let err := fst (urlkit.DownloadFile net fromUrl saveToFilepath) in
  let calls := snd (urlkit.DownloadFile net fromUrl saveToFilepath) in
  (err = None <->
   urlkit.createAnswer net saveToFilepath = None /\
   (exists Status, urlkit.getAnswer net fromUrl = urlkit.Response 200 Status) /\
   urlkit.copyAnswer net saveToFilepath = None) /\
  (forall StatusCode Status,
     urlkit.createAnswer net saveToFilepath = None ->
     urlkit.getAnswer net fromUrl = urlkit.Response StatusCode Status ->
     StatusCode <> 200%Z ->
     err = Some (Errorf "bad status: %s" [OpString Status]) /\
     ~ In (urlkit.CopyCall saveToFilepath) calls /\
     In urlkit.CloseBodyCall calls) /\
  hd_error calls = Some (urlkit.CreateCall saveToFilepath) /\
  (urlkit.createAnswer net saveToFilepath = None ->
   last calls = Some (urlkit.CloseOutCall saveToFilepath)).
Proof.
  intros err calls. subst err calls. unfold urlkit.DownloadFile.
  destruct (urlkit.createAnswer net saveToFilepath) as [e1|]; cbn [fst snd].
  { split; [split; [discriminate | intros (Hcreated & _); discriminate Hcreated]|].
    split; [intros code line Hcreated; discriminate Hcreated|].
    split; [reflexivity | discriminate]. }
  destruct (urlkit.getAnswer net fromUrl) as [StatusCode Status|e2]; cbn [fst snd].
  2:{ split; [split; [discriminate | intros (_ & (line & Hget) & _); discriminate Hget]|].
      split; [intros code line _ Hget; discriminate Hget|].
      split; reflexivity. }
  destruct (Z.eqb_spec StatusCode urlkit.StatusOK) as [->|Hother]; cbn [negb fst snd].
  - split.
    + split; [intros Hcopied; repeat split; eauto|]. intros (_ & _ & Hcopied). exact Hcopied.
    + split; [|split; reflexivity].
      intros code line _ Hget Hcode. inversion Hget; subst. contradiction Hcode. reflexivity.
  - split.
    + split; [discriminate|]. intros (_ & (line & Hget) & _).
      inversion Hget; subst. contradiction Hother. reflexivity.
    + split; [|split; reflexivity].
      intros code line _ Hget _. inversion Hget; subst.
      split; [reflexivity|]. split; [|cbn; tauto].
      cbn. intros Hin. repeat (destruct Hin as [Hin|Hin]; [discriminate Hin|]). exact Hin.
Qed.

Lemma DownloadFile_status_witness :
  fst (urlkit.DownloadFile notFound "http://127.0.0.1:8080/kubo.tar.gz" "should_not_exist.txt")
  = Some (Errorf "bad status: %s" [OpString "404 Not Found"]) /\
  hd_error (snd (urlkit.DownloadFile notFound "http://127.0.0.1:8080/kubo.tar.gz"
                   "should_not_exist.txt"))
  = Some (urlkit.CreateCall "should_not_exist.txt") /\
  fst (urlkit.DownloadFile served "http://127.0.0.1:8080/kubo.tar.gz" "testfile.txt") = None.
Proof.
  split; [|split; [reflexivity|]].
  - refine (proj1 (proj1 (proj2 (DownloadFile_status notFound
              "http://127.0.0.1:8080/kubo.tar.gz" "should_not_exist.txt"))
              404%Z "404 Not Found" eq_refl eq_refl _)).
    discriminate.
  - apply (proj1 (DownloadFile_status served "http://127.0.0.1:8080/kubo.tar.gz"
                    "testfile.txt")).
    repeat split; eauto.
Defined.
